(** * Velixar MCP server: a shallow embedding of [src/index.js]

    The server is a thin adapter between the tool-invocation protocol and
    the HTTP memory API.  Everything it computes is string building over
    dynamically typed JSON data, so the embedding has three layers:

    - [Js] and [Url]: the fragment of the JavaScript value semantics the
      handlers rely on (truthiness, [??], [?.], property reads that
      throw on null/undefined, [ToString], [JSON.stringify]) and
      [URLSearchParams];
    - [Server]: [apiRequest], [fetchRecall] and the request handlers,
      written in a state-and-exception monad.  The state is the module
      variable [_recalledMemories] together with a log of the [fetch]
      calls issued so far; the remote service is a host function;
    - the properties of the handlers.

    Strings are [string]; one [ascii] stands for one code unit of the
    source string.  The non-ASCII glyphs of the source literals are
    written as their UTF-8 bytes; the program never measures them.
    Numbers are the integers (printed in decimal, as [String] does below
    10^21) and NaN.  Time is not modelled: the timeout of [apiRequest]
    shows as one of the ways a [fetch] call can be rejected, and the
    handlers run one at a time. *)

From Stdlib Require Import ZArith List Bool Ascii String Lia.
From Stdlib Require Import Numbers.DecimalString.
Import ListNotations.
Open Scope string_scope.
Open Scope Z_scope.

(* ------------------------------------------------------------------ *)
(** ** String helpers *)

Module Str.

(** The line feed of the source's ["\n"]. *)
Definition nl : string := String "010"%char "".

(** The double quote character. *)
Definition dquote : ascii := "034"%char.

(** The backslash character. *)
Definition backslash : ascii := "092"%char.

(** [s.slice(0, n)] and [s.substring(0, n)] for a non-negative literal [n]. *)
Fixpoint take (n : nat) (s : string) : string :=
  match n, s with
  | O, _ => ""
  | _, EmptyString => ""
  | S n', String c s' => String c (take n' s')
  end.

(** [hay.includes(needle)]. *)
Fixpoint includes (needle hay : string) : bool :=
  prefix needle hay ||
  match hay with
  | EmptyString => false
  | String _ hay' => includes needle hay'
  end.

(** [hay.endsWith(needle)]. *)
Fixpoint ends_with (needle hay : string) : bool :=
  String.eqb needle hay ||
  match hay with
  | EmptyString => false
  | String _ hay' => ends_with needle hay'
  end.

(** The propositional reading of [includes]. *)
Definition Contains (hay needle : string) : Prop :=
  exists before after, hay = before ++ needle ++ after.

(** The propositional reading of [ends_with]. *)
Definition EndsWith (hay needle : string) : Prop :=
  exists before, hay = before ++ needle.

(** Decimal rendering of an integer. *)
Definition of_Z (z : Z) : string := NilZero.string_of_int (Z.to_int z).

Definition hex_digit (upper : bool) (n : nat) : ascii :=
  if (n <? 10)%nat then ascii_of_nat (48 + n)
  else ascii_of_nat ((if upper then 55 else 87) + n).

(** The two hexadecimal digits of a code unit below 256. *)
Definition hex2 (upper : bool) (c : ascii) : string :=
  let n := nat_of_ascii c in
  String (hex_digit upper (n / 16)) (String (hex_digit upper (n mod 16)) "").

End Str.

(* ------------------------------------------------------------------ *)
(** ** JavaScript values *)

Module Js.

#[local] Set Warnings "-register-all".

(** Numbers: NaN or an integer. *)
Inductive number : Type :=
| NaN
| Fin (z : Z).

(** The values the handlers see: JSON data, plus [undefined] for an
    absent property or argument. *)
Inductive JsVal : Type :=
| JUndefined
| JNull
| JBool (b : bool)
| JNum (n : number)
| JStr (s : string)
| JArr (elems : list JsVal)
| JObj (fields : list (string * JsVal)).

(** A thrown [Error] object: the handlers only look at [name] and
    [message]. *)
Record Exn : Type := mkExn { name : string; message : string }.

(** [new Error(msg)] *)
Definition Error (msg : string) : Exn := mkExn "Error" msg.

(** [TypeError], with the message text of V8. *)
Definition TypeError (msg : string) : Exn := mkExn "TypeError" msg.

(** A computation that returns or throws. *)
Definition Res (A : Type) : Type := (Exn + A)%type.

(** ToBoolean *)
Definition truthy (v : JsVal) : bool :=
  match v with
  | JUndefined | JNull => false
  | JBool b => b
  | JNum NaN => false
  | JNum (Fin z) => negb (z =? 0)
  | JStr s => negb (String.eqb s "")
  | JArr _ | JObj _ => true
  end.

(** [v == null], the test behind [??], [?.] and [!= null]. *)
Definition nullish (v : JsVal) : bool :=
  match v with
  | JUndefined | JNull => true
  | _ => false
  end.

(** [a ?? b] *)
Definition coalesce (a b : JsVal) : JsVal := if nullish a then b else a.

(** [a || b] *)
Definition or_else (a b : JsVal) : JsVal := if truthy a then a else b.

(** Own-property lookup in an object; the first binding of a key is
    the property. *)
Fixpoint lookup (k : string) (fields : list (string * JsVal)) : option JsVal :=
  match fields with
  | [] => None
  | (k', v) :: rest => if String.eqb k k' then Some v else lookup k rest
  end.

(** [obj[k] = v]: overwrite in place, or append a new property. *)
Fixpoint assign (k : string) (v : JsVal) (fields : list (string * JsVal))
  : list (string * JsVal) :=
  match fields with
  | [] => [(k, v)]
  | (k', v') :: rest =>
      if String.eqb k k' then (k, v) :: rest else (k', v') :: assign k v rest
  end.

(** [delete obj[k]] *)
Fixpoint remove (k : string) (fields : list (string * JsVal))
  : list (string * JsVal) :=
  match fields with
  | [] => []
  | (k', v') :: rest =>
      if String.eqb k k' then remove k rest else (k', v') :: remove k rest
  end.

(** The value of an object's property: [undefined] when it has none. *)
Definition field (fields : list (string * JsVal)) (k : string) : JsVal :=
  match lookup k fields with
  | Some x => x
  | None => JUndefined
  end.

(** Number::toString *)
Definition NumberToString (n : number) : string :=
  match n with
  | NaN => "NaN"
  | Fin z => Str.of_Z z
  end.

(** ToString on the values above.  An array prints its elements
    separated by commas, null and undefined elements as nothing; a
    plain object prints as [[object Object]].  (Objects are plain data:
    an object that shadows [toString] with a property of its own, on
    which the conversion throws, is outside the model.) *)
Fixpoint ToString (v : JsVal) : string :=
  match v with
  | JUndefined => "undefined"
  | JNull => "null"
  | JBool true => "true"
  | JBool false => "false"
  | JNum n => NumberToString n
  | JStr s => s
  | JArr elems =>
      String.concat ","
        (map (fun e => match e with
                       | JUndefined | JNull => ""
                       | _ => ToString e
                       end) elems)
  | JObj _ => "[object Object]"
  end.

(** [elems.join(sep)] *)
Definition join (sep : string) (elems : list JsVal) : string :=
  String.concat sep
    (map (fun e => if nullish e then "" else ToString e) elems).

(** The value of [v.k] for the property names the program reads
    ([content], [tags], [tier], [score], [id], [error], [memories],
    [count], [cursor], [limit], [query] and [length]): reading a
    property of null or undefined throws; strings and arrays have a
    [length]; numbers and booleans have none of these properties. *)
Definition prop (v : JsVal) (k : string) : Res JsVal :=
  match v with
  | JUndefined =>
      inl (TypeError ("Cannot read properties of undefined (reading '" ++ k ++ "')"))
  | JNull =>
      inl (TypeError ("Cannot read properties of null (reading '" ++ k ++ "')"))
  | JObj fields =>
      inr (field fields k)
  | JStr s =>
      inr (if String.eqb k "length" then JNum (Fin (Z.of_nat (String.length s)))
           else JUndefined)
  | JArr elems =>
      inr (if String.eqb k "length" then JNum (Fin (Z.of_nat (List.length elems)))
           else JUndefined)
  | JBool _ | JNum _ => inr JUndefined
  end.

(** [v?.k] *)
Definition opt_prop (v : JsVal) (k : string) : Res JsVal :=
  if nullish v then inr JUndefined else prop v k.

(** QuoteJSONString: the escapes of [JSON.stringify]. *)
Fixpoint quote_body (s : string) : string :=
  match s with
  | EmptyString => ""
  | String c s' =>
      let n := nat_of_ascii c in
      (if (n =? 34)%nat then String Str.backslash (String Str.dquote "")
       else if (n =? 92)%nat then String Str.backslash (String Str.backslash "")
       else if (n =? 8)%nat then String Str.backslash "b"
       else if (n =? 9)%nat then String Str.backslash "t"
       else if (n =? 10)%nat then String Str.backslash "n"
       else if (n =? 12)%nat then String Str.backslash "f"
       else if (n =? 13)%nat then String Str.backslash "r"
       else if (n <? 32)%nat then String Str.backslash ("u00" ++ Str.hex2 false c)
       else String c "") ++ quote_body s'
  end.

Definition quote (s : string) : string :=
  String Str.dquote (quote_body s ++ String Str.dquote "").

(** [JSON.stringify(v)]: [None] is the [undefined] it returns for
    [undefined].  A property whose value is undefined is left out, an
    undefined array element is written [null], NaN is written [null]. *)
Fixpoint JSON_stringify (v : JsVal) : option string :=
  match v with
  | JUndefined => None
  | JNull => Some "null"
  | JBool true => Some "true"
  | JBool false => Some "false"
  | JNum NaN => Some "null"
  | JNum (Fin z) => Some (Str.of_Z z)
  | JStr s => Some (quote s)
  | JArr elems =>
      Some ("[" ++ String.concat ","
              (map (fun e => match JSON_stringify e with
                             | Some t => t
                             | None => "null"
                             end) elems) ++ "]")
  | JObj fields =>
      Some ("{" ++ String.concat ","
              (flat_map (fun kv => match kv with
                                   | (k, e) =>
                                       match JSON_stringify e with
                                       | Some t => [quote k ++ ":" ++ t]
                                       | None => []
                                       end
                                   end) fields) ++ "}")
  end.

End Js.

(* ------------------------------------------------------------------ *)
(** ** The WHATWG pieces: [URLSearchParams] *)

Module Url.

(** application/x-www-form-urlencoded byte serialisation: letters,
    digits and [*-._] stay, a space becomes [+], every other byte is
    percent-encoded with upper-case digits. *)
Definition encode_byte (c : ascii) : string :=
  let n := nat_of_ascii c in
  if (n =? 32)%nat then "+"
  else if ((n =? 42) || (n =? 45) || (n =? 46) || (n =? 95)
           || ((48 <=? n) && (n <=? 57))
           || ((65 <=? n) && (n <=? 90))
           || ((97 <=? n) && (n <=? 122)))%nat
       then String c ""
       else "%" ++ Str.hex2 true c.

Fixpoint encode (s : string) : string :=
  match s with
  | EmptyString => ""
  | String c s' => encode_byte c ++ encode s'
  end.

(** A [URLSearchParams] object: its list of name-value pairs. *)
Definition URLSearchParams : Type := list (string * string).

(** [params.set(k, v)]: the first pair named [k] takes the value and
    the later ones go; without one the pair is appended. *)
Fixpoint set (k v : string) (params : URLSearchParams) : URLSearchParams :=
  match params with
  | [] => [(k, v)]
  | (k', v') :: rest =>
      if String.eqb k k'
      then (k, v) :: filter (fun kv => negb (String.eqb k (fst kv))) rest
      else (k', v') :: set k v rest
  end.

(** [params.toString()], which a template literal applies. *)
Definition toString (params : URLSearchParams) : string :=
  String.concat "&"
    (map (fun kv => encode (fst kv) ++ "=" ++ encode (snd kv)) params).

End Url.

(* ------------------------------------------------------------------ *)
(** ** The effect monads *)

Class Monad (m : Type -> Type) : Type := {
  ret : forall {A : Type}, A -> m A;
  bind : forall {A B : Type}, m A -> (A -> m B) -> m B
}.

Declare Scope monad_scope.
Delimit Scope monad_scope with monad.
Notation "x <- c ;; k" := (bind c (fun x => k))
  (at level 61, c at next level, right associativity) : monad_scope.
Open Scope monad_scope.

(** Synchronous code that returns or throws. *)
#[export] Instance Monad_Res : Monad Js.Res := {
  ret := fun A a => inr a;
  bind := fun A B c k => match c with inl e => inl e | inr a => k a end
}.

Module Server.
Import Js.

(** *** Configuration, read once from the environment *)

Record Config : Type := {
  API_KEY : string;
  API_BASE : string;
  USER_ID : string;
  AUTO_RECALL : bool;
  RECALL_LIMIT : number
}.

Definition TIMEOUT_MS : Z := 30000.

(** *** The host: [fetch] and the parts of the engine left abstract *)

(** The arguments of one [fetch] call. *)
Record Request : Type := {
  url : string;
  method : option string;
  body : option string;
  headers : list (string * string)
}.

(** What the handlers read of a [Response]: [ok], [status], and what
    [text()] and [json()] settle to. *)
Record Response : Type := {
  ok : bool;
  status : Z;
  body_text : Res string;
  body_json : Res JsVal
}.

(** [await fetch(...)] settles to a response or rejects; the abort of
    the timer is a rejection named [AbortError]. *)
Inductive FetchOutcome : Type :=
| Rejected (e : Exn)
| Responded (res : Response).

Record Host : Type := {
  fetch : Request -> FetchOutcome;
  (** StringToNumber of the engine, used by [>] on a non-number. *)
  StringToNumber : string -> number
}.

(** *** State *)

Record World : Type := {
  _recalledMemories : JsVal;
  (** the [fetch] calls issued so far, oldest first *)
  sent : list Request
}.

(** [let _recalledMemories = null] *)
Definition initial : World := {| _recalledMemories := JNull; sent := [] |}.

(** Handler code: may read and write the world, and return or throw. *)
Definition M (A : Type) : Type := World -> Res A * World.

#[export] Instance Monad_M : Monad M := {
  ret := fun A a w => (inr a, w);
  bind := fun A B c k w =>
    match c w with
    | (inl e, w') => (inl e, w')
    | (inr a, w') => k a w'
    end
}.

Definition throw {A : Type} (e : Exn) : M A := fun w => (inl e, w).

(** Run synchronous code inside a handler. *)
Definition lift {A : Type} (c : Res A) : M A := fun w => (c, w).

(** [try { body } catch (e) { handler(e) }] *)
Definition try_catch {A : Type} (body : M A) (handler : Exn -> M A) : M A :=
  fun w =>
    match body w with
    | (inl e, w') => handler e w'
    | (inr a, w') => (inr a, w')
    end.

(** The world after one more [fetch] call. *)
Definition log (req : Request) (w : World) : World :=
  {| _recalledMemories := _recalledMemories w; sent := sent w ++ [req] |}.

Definition get_recalled : M JsVal := fun w => (inr (_recalledMemories w), w).

Definition set_recalled (v : JsVal) : M unit :=
  fun w => (inr tt, {| _recalledMemories := v; sent := sent w |}).

(** *** Results of the handlers *)

Record TextContent : Type := { type : string; text : string }.

Record ToolResult : Type := { content : list TextContent; isError : bool }.

(** [{ content: [{ type: "text", text }] }] *)
Definition success (t : string) : ToolResult :=
  {| content := [{| type := "text"; text := t |}]; isError := false |}.

(** [{ content: [{ type: "text", text }], isError: true }] *)
Definition failure (t : string) : ToolResult :=
  {| content := [{| type := "text"; text := t |}]; isError := true |}.

Record Resource : Type := {
  r_uri : string;
  r_name : string;
  r_description : string;
  r_mimeType : string
}.

Record ResourceContents : Type := {
  c_uri : string;
  c_mimeType : string;
  c_text : string
}.

(** The [options] bundle of [apiRequest]; [{}] is [no_options]. *)
Record Options : Type := {
  o_method : option string;
  o_body : option string;
  o_headers : list (string * string)
}.

Definition no_options : Options :=
  {| o_method := None; o_body := None; o_headers := [] |}.

Definition placeholder : string := "No memories found.".

Definition recent_uri : string := "velixar://memories/recent".

(** *** The program *)

Section Program.

Variable cfg : Config.
Variable host : Host.

(** [await fetch(url, init)] *)
Definition await_fetch (req : Request) : M Response :=
  fun w =>
    match fetch host req with
    | Rejected e => (inl e, log req w)
    | Responded res => (inr res, log req w)
    end.

Fixpoint set_header (k v : string) (hs : list (string * string))
  : list (string * string) :=
  match hs with
  | [] => [(k, v)]
  | (k', v') :: rest =>
      if String.eqb k k' then (k, v) :: rest else (k', v') :: set_header k v rest
  end.

(** The [init] object of the [fetch] call: the options spread first,
    then the fixed headers with the caller's spread over them. *)
Definition build_request (path : string) (options : Options) : Request :=
  {| url := API_BASE cfg ++ path;
     method := o_method options;
     body := o_body options;
     headers :=
       fold_left (fun hs kv => set_header (fst kv) (snd kv) hs)
         (o_headers options)
         [("authorization", "Bearer " ++ API_KEY cfg);
          ("Content-Type", "application/json")] |}.

(** The error of the [!res.ok] branch; [body] is
    [await res.text().catch(() => "")]. *)
Definition status_error (res : Response) : Exn :=
  let body := match body_text res with
              | inr t => t
              | inl _ => ""
              end in
  Error ("API " ++ Str.of_Z (status res) ++ ": " ++ Str.take 200 body).

(** [apiRequest(path, options)].  The [try] block returns the promise
    of [res.json()] without awaiting it, so its rejection passes the
    [catch] clause untouched. *)
Definition apiRequest (path : string) (options : Options) : M JsVal :=
  promise <-
    try_catch
      (res <- await_fetch (build_request path options) ;;
       if negb (ok res) then throw (status_error res)
       else ret (body_json res))
      (fun e =>
         if String.eqb (name e) "AbortError"
         then throw (Error ("API timeout after " ++ Str.of_Z TIMEOUT_MS ++ "ms"))
         else throw e) ;;
  lift promise.

(** [fetchRecall()] *)
Definition fetchRecall : M unit :=
  if negb (AUTO_RECALL cfg) then ret tt
  else
    try_catch
      (let params : Url.URLSearchParams :=
         [("user_id", USER_ID cfg);
          ("limit", NumberToString (RECALL_LIMIT cfg))] in
       result <- apiRequest ("/memory/list?" ++ Url.toString params) no_options ;;
       memories <- lift (prop result "memories") ;;
       set_recalled (or_else memories (JArr [])))
      (fun _ => set_recalled (JArr [])).

(** [v.map(f)]: only an array has the method. *)
Definition call_map (expr : string) (v : JsVal) (f : JsVal -> Res string)
  : Res (list string) :=
  match v with
  | JArr elems =>
      fold_right (fun m acc => line <- f m ;; rest <- acc ;; ret (line :: rest))
        (ret []) elems
  | JUndefined | JNull => _ <- prop v "map" ;; ret []
  | _ => inl (TypeError (expr ++ ".map is not a function"))
  end.

(** [v.join(sep)]: only an array has the method. *)
Definition call_join (expr : string) (v : JsVal) (sep : string) : Res string :=
  match v with
  | JArr elems => ret (join sep elems)
  | JUndefined | JNull => _ <- prop v "join" ;; ret ""
  | _ => inl (TypeError (expr ++ ".join is not a function"))
  end.

(** ToNumber *)
Definition ToNumber (v : JsVal) : number :=
  match v with
  | JUndefined => NaN
  | JNull => Fin 0
  | JBool b => Fin (if b then 1 else 0)
  | JNum n => n
  | JStr s => StringToNumber host s
  | JArr _ => StringToNumber host (ToString v)
  | JObj _ => NaN
  end.

(** [v > k] for a number literal [k] *)
Definition gt (v : JsVal) (k : Z) : bool :=
  match ToNumber v with
  | NaN => false
  | Fin z => k <? z
  end.

(** The tags suffix shared by the resource and the list renderers:
    [m.tags?.length ? ` [${m.tags.join(", ")}]` : ""] *)
Definition tags_suffix (m : JsVal) : Res string :=
  tags <- prop m "tags" ;;
  len <- opt_prop tags "length" ;;
  if truthy len then
    joined <- call_join "m.tags" tags ", " ;;
    ret (" [" ++ joined ++ "]")
  else ret "".

(** The callback of [map] in the resource reader. *)
Definition recent_line (m : JsVal) : Res string :=
  tags <- tags_suffix m ;;
  t <- prop m "tier" ;;
  let tier := if negb (nullish t) then " (tier " ++ ToString t ++ ")" else "" in
  c <- prop m "content" ;;
  ret (ToString c ++ tags ++ tier).

(** The handler of [ListResourcesRequestSchema]. *)
Definition ListResources : M (list Resource) :=
  if negb (AUTO_RECALL cfg) then ret []
  else
    recalled <- get_recalled ;;
    len <- lift (opt_prop recalled "length") ;;
    if negb (truthy len) then ret []
    else
    len' <- lift (prop recalled "length") ;;
    ret [{| r_uri := recent_uri;
            r_name := "Velixar — Recent Memories";
            r_description :=
              ToString len' ++ " most recent memories from your Velixar memory store";
            r_mimeType := "text/plain" |}].

(** The handler of [ReadResourceRequestSchema]. *)
Definition ReadResource (uri : string) : M (list ResourceContents) :=
  if String.eqb uri recent_uri then
    before <- get_recalled ;;
    _ <- (if negb (truthy before) then fetchRecall else ret tt) ;;
    recalled <- get_recalled ;;
    lines <- lift (call_map "(_recalledMemories || [])"
                     (or_else recalled (JArr [])) recent_line) ;;
    let t := String.concat (Str.nl ++ "---" ++ Str.nl) lines in
    ret [{| c_uri := recent_uri;
            c_mimeType := "text/plain";
            c_text := if String.eqb t "" then placeholder else t |}]
  else throw (Error ("Unknown resource: " ++ uri)).

(** The names of the tools declared by the handler of
    [ListToolsRequestSchema], in its order. *)
Definition tool_names : list string :=
  ["velixar_store"; "velixar_search"; "velixar_delete"; "velixar_list";
   "velixar_update"].

(** *** The tool handler, branch by branch *)

Definition primary_context_note : string :=
  Str.nl ++ Str.nl ++ "Note: Velixar MCP tools are only available in the primary agent context. If you're seeing this in a subagent, memory operations must be handled by the primary agent.".

Definition primary_context_help : string :=
  Str.nl ++ Str.nl ++ "Note: Velixar MCP tools are only available in the primary agent context. If you're using subagents, handle memory operations in the primary agent before/after delegating other tasks.".

(** [if (result.error) throw new Error(result.error)] *)
Definition check_error (result : JsVal) : M unit :=
  err <- lift (prop result "error") ;;
  if truthy err then throw (Error (ToString err)) else ret tt.

(** The object handed to [JSON.stringify] by the store branch. *)
Definition store_payload (content tier tags : JsVal) : JsVal :=
  JObj [("content", content);
        ("user_id", JStr (USER_ID cfg));
        ("tier", coalesce tier (JNum (Fin 2)));
        ("tags", or_else tags (JArr []))].

Definition velixar_store (args : JsVal) : M ToolResult :=
  content <- lift (prop args "content") ;;
  tier <- lift (prop args "tier") ;;
  tags <- lift (prop args "tags") ;;
  result <- apiRequest "/memory"
              {| o_method := Some "POST";
                 o_body := JSON_stringify (store_payload content tier tags);
                 o_headers := [] |} ;;
  _ <- check_error result ;;
  id <- lift (prop result "id") ;;
  if negb (truthy id) then throw (Error "Store succeeded but no ID returned")
  else ret (success ("✓ Stored memory (id: " ++ ToString id ++ ")")).

(** The callback of [map] in the search branch. *)
Definition search_line (m : JsVal) : Res string :=
  c <- prop m "content" ;;
  score <- prop m "score" ;;
  ret ("• " ++ ToString c
         ++ (if truthy score then " (score: " ++ ToString score ++ ")" else "")).

Definition velixar_search (args : JsVal) : M ToolResult :=
  query <- lift (prop args "query") ;;
  let params : Url.URLSearchParams :=
    [("q", ToString query); ("user_id", USER_ID cfg)] in
  limit <- lift (prop args "limit") ;;
  let params :=
    if truthy limit then Url.set "limit" (ToString limit) params else params in
  result <- apiRequest ("/memory/search?" ++ Url.toString params) no_options ;;
  _ <- check_error result ;;
  memories <- lift (prop result "memories") ;;
  len <- lift (opt_prop memories "length") ;;
  if negb (truthy len) then ret (success placeholder)
  else
    lines <- lift (call_map "result.memories" memories search_line) ;;
    count <- lift (prop result "count") ;;
    ret (success ("Found " ++ ToString count ++ " memories:" ++ Str.nl
                    ++ String.concat Str.nl lines)).

Definition velixar_delete (args : JsVal) : M ToolResult :=
  id <- lift (prop args "id") ;;
  result <- apiRequest ("/memory/" ++ ToString id)
              {| o_method := Some "DELETE"; o_body := None; o_headers := [] |} ;;
  _ <- check_error result ;;
  id <- lift (prop args "id") ;;
  ret (success ("✓ Deleted memory: " ++ ToString id)).

(** [m.content.length > 120 ? m.content.substring(0, 120) + "…" : m.content],
    already converted to the string the template prints. *)
Definition preview (m : JsVal) : Res string :=
  c <- prop m "content" ;;
  len <- prop c "length" ;;
  if gt len 120 then
    match c with
    | JStr s => ret (Str.take 120 s ++ "…")
    | _ => inl (TypeError "m.content.substring is not a function")
    end
  else ret (ToString c).

(** The callback of [map] in the list branch. *)
Definition list_line (m : JsVal) : Res string :=
  tags <- tags_suffix m ;;
  p <- preview m ;;
  id <- prop m "id" ;;
  ret ("• " ++ ToString id ++ ": " ++ p ++ tags).

Definition velixar_list (args : JsVal) : M ToolResult :=
  let params : Url.URLSearchParams := [("user_id", USER_ID cfg)] in
  limit <- lift (prop args "limit") ;;
  let params :=
    if truthy limit then Url.set "limit" (ToString limit) params else params in
  cursor <- lift (prop args "cursor") ;;
  let params :=
    if truthy cursor then Url.set "cursor" (ToString cursor) params else params in
  result <- apiRequest ("/memory/list?" ++ Url.toString params) no_options ;;
  _ <- check_error result ;;
  memories <- lift (prop result "memories") ;;
  len <- lift (opt_prop memories "length") ;;
  if negb (truthy len) then ret (success placeholder)
  else
    lines <- lift (call_map "result.memories" memories list_line) ;;
    next <- lift (prop result "cursor") ;;
    let cursor :=
      if truthy next then Str.nl ++ "Next cursor: " ++ ToString next else "" in
    count <- lift (prop result "count") ;;
    ret (success (ToString count ++ " memories:" ++ cursor ++ Str.nl
                    ++ String.concat Str.nl lines)).

(** The object handed to [JSON.stringify] by the update branch:
    [body = { user_id }], then the two conditional assignments. *)
Definition update_payload (content tags : JsVal) : list (string * JsVal) :=
  let body := [("user_id", JStr (USER_ID cfg))] in
  let body := if truthy content then assign "content" content body else body in
  let body := if truthy tags then assign "tags" tags body else body in
  body.

Definition velixar_update (args : JsVal) : M ToolResult :=
  content <- lift (prop args "content") ;;
  tags <- lift (prop args "tags") ;;
  id <- lift (prop args "id") ;;
  result <- apiRequest ("/memory/" ++ ToString id)
              {| o_method := Some "PATCH";
                 o_body := JSON_stringify (JObj (update_payload content tags));
                 o_headers := [] |} ;;
  _ <- check_error result ;;
  id <- lift (prop args "id") ;;
  ret (success ("✓ Updated memory: " ++ ToString id)).

(** The [try] block of the handler of [CallToolRequestSchema]. *)
Definition dispatch (name : string) (args : JsVal) : M ToolResult :=
  if String.eqb name "velixar_store" then velixar_store args
  else if String.eqb name "velixar_search" then velixar_search args
  else if String.eqb name "velixar_delete" then velixar_delete args
  else if String.eqb name "velixar_list" then velixar_list args
  else if String.eqb name "velixar_update" then velixar_update args
  else ret (failure ("Unknown tool: " ++ name ++ primary_context_note)).

(** Its [catch] clause. *)
Definition helpText (msg : string) : string :=
  if Str.includes "tool" msg || Str.includes "not found" msg
  then primary_context_help else "".

Definition on_error (error : Exn) : M ToolResult :=
  ret (failure ("Error: " ++ message error ++ helpText (message error))).

(** The handler of [CallToolRequestSchema]. *)
Definition CallTool (name : string) (args : JsVal) : M ToolResult :=
  try_catch (dispatch name args) on_error.

(** *** The server as a transition system *)

Inductive ProtocolRequest : Type :=
| ListResourcesRequest
| ReadResourceRequest (uri : string)
| CallToolRequest (name : string) (args : JsVal).

Inductive ProtocolResult : Type :=
| Resources (resources : list Resource)
| Contents (contents : list ResourceContents)
| Called (result : ToolResult).

Definition handle (rq : ProtocolRequest) : M ProtocolResult :=
  match rq with
  | ListResourcesRequest => rs <- ListResources ;; ret (Resources rs)
  | ReadResourceRequest uri => cs <- ReadResource uri ;; ret (Contents cs)
  | CallToolRequest name args => r <- CallTool name args ;; ret (Called r)
  end.

(** The worlds the process can be in between two handler runs.  The
    start-up [fetchRecall()] is not awaited, so it may take effect
    before any request or after some of them. *)
Inductive reachable : World -> Prop :=
| reach_initial : reachable initial
| reach_prefetch w : reachable w -> reachable (snd (fetchRecall w))
| reach_handle w rq : reachable w -> reachable (snd (handle rq w)).

End Program.

End Server.


Import Js Server.

(* ------------------------------------------------------------------ *)
(** ** Sample configurations, hosts and exchanges *)

Module Samples.

(** The defaults of the source, with some API key. *)
Definition cfg_default : Config :=
  {| API_KEY := "vlx_test";
     API_BASE := "https://api.velixarai.com";
     USER_ID := "mcp-user";
     AUTO_RECALL := true;
     RECALL_LIMIT := Fin 10 |}.

(** The environment of the package's tests. *)
Definition cfg_test : Config :=
  {| API_KEY := "test-key";
     API_BASE := "https://api.velixarai.com";
     USER_ID := "test-user";
     AUTO_RECALL := true;
     RECALL_LIMIT := Fin 10 |}.

(** The headers every request of the tests carries. *)
Definition test_headers : list (string * string) :=
  [("authorization", "Bearer test-key"); ("Content-Type", "application/json")].

(** [VELIXAR_AUTO_RECALL=false] *)
Definition cfg_no_recall : Config :=
  {| API_KEY := "vlx_test";
     API_BASE := "https://api.velixarai.com";
     USER_ID := "mcp-user";
     AUTO_RECALL := false;
     RECALL_LIMIT := Fin 10 |}.

Definition is_digit (c : ascii) : bool :=
  let n := nat_of_ascii c in ((48 <=? n) && (n <=? 57))%nat.

Fixpoint digits_value (acc : Z) (s : string) : number :=
  match s with
  | EmptyString => Fin acc
  | String c s' =>
      if is_digit c
      then digits_value (10 * acc + Z.of_nat (nat_of_ascii c - 48)) s'
      else NaN
  end.

(** StringToNumber on strings of decimal digits (the empty string is
    0); the sample hosts read every other string as NaN. *)
Definition digits_to_number (s : string) : number := digits_value 0 s.

(** A service that answers every request with the response [res]. *)
Definition replying (res : Response) : Host :=
  {| fetch := fun _ => Responded res; StringToNumber := digits_to_number |}.

(** A 200 response whose body decodes to [v]. *)
Definition ok_json (v : JsVal) : Response :=
  {| ok := true; status := 200;
     body_text := inr (match JSON_stringify v with Some t => t | None => "" end);
     body_json := inr v |}.

(** The mock of the package's tests: every request gets [v]. *)
Definition mock (v : JsVal) : Host := replying (ok_json v).

(** A response with status [code] outside 200-299 and body [v]. *)
Definition failed_json (code : Z) (v : JsVal) : Response :=
  {| ok := false; status := code;
     body_text := inr (match JSON_stringify v with Some t => t | None => "" end);
     body_json := inr v |}.

(** A service that cannot be reached. *)
Definition unreachable : Host :=
  {| fetch := fun _ => Rejected (TypeError "fetch failed");
     StringToNumber := digits_to_number |}.

Fixpoint replicate (n : nat) (c : ascii) : string :=
  match n with
  | O => ""
  | S n' => String c (replicate n' c)
  end.

(** A 500 response with a short JSON body. *)
Definition boom : Response := failed_json 500 (JObj [("error", JStr "boom")]).

(** A decoded body that reports an error and has no [memories]. *)
Definition rate_limited : list (string * JsVal) :=
  [("error", JStr "rate limited")].

(** A service whose every call runs into the 30 second timer. *)
Definition timing_out : Host :=
  {| fetch := fun _ => Rejected (mkExn "AbortError" "This operation was aborted");
     StringToNumber := digits_to_number |}.

(** A 200 response whose body is not JSON. *)
Definition not_json : Response :=
  {| ok := true; status := 200;
     body_text := inr "<html>";
     body_json := inl (mkExn "SyntaxError" "Unexpected token < in JSON") |}.

(** A world whose slot holds a snapshot of one memory. *)
Definition populated : World :=
  {| _recalledMemories :=
       JArr [JObj [("content", JStr "never deploy on friday")]];
     sent := [] |}.

(** A failure report whose [error] field comes after a long trace. *)
Definition traced_error : JsVal :=
  JObj [("trace", JStr (replicate 200 "x")); ("error", JStr "quota exceeded")].

(** A page of one memory, with a cursor to the next page. *)
Definition page_with_cursor : list (string * JsVal) :=
  [("memories", JArr [JObj [("id", JStr "m1"); ("content", JStr "hi")]]);
   ("count", JNum (Fin 1));
   ("cursor", JStr "abc")].

(** A last page of one memory, whose content has a second line. *)
Definition page_with_two_line_memory : list (string * JsVal) :=
  [("memories",
    JArr [JObj [("id", JStr "m1");
                ("content", JStr ("note" ++ Str.nl ++ "Next cursor: zzz"))]]);
   ("count", JNum (Fin 1))].

(** Search results: one memory scored 0, one scored 3. *)
Definition scored_results : list (string * JsVal) :=
  [("memories",
    JArr [JObj [("content", JStr "staging is us-west-2"); ("score", JNum (Fin 0))];
          JObj [("content", JStr "prod is us-east-1"); ("score", JNum (Fin 3))]]);
   ("count", JNum (Fin 2))].

(** A pinned memory. *)
Definition pinned_memory : list (string * JsVal) :=
  [("id", JStr "m7"); ("content", JStr "never deploy on friday");
   ("tags", JArr [JStr "ops"; JStr "rules"]); ("tier", JNum (Fin 0))].

End Samples.

(* ------------------------------------------------------------------ *)
(** ** Predicates on handler code *)

(** [c] leaves the part [view] of the world as it found it. *)
Definition preserves {T X : Type} (view : World -> T) (c : M X) : Prop :=
  forall w, view (snd (c w)) = view w.

(** [c] does not write the prefetch slot. *)
Abbreviation keeps_slot := (preserves _recalledMemories).

(** [c] has no effect on the world: no fetch, no write. *)
Abbreviation effect_free := (preserves (fun w : World => w)).

(** When [c] returns, it returns one text payload, flagged or not. *)
Definition returns_text (c : M ToolResult) : Prop :=
  forall w r, fst (c w) = inr r -> exists t, r = success t \/ r = failure t.

(** Run from [w], [c] issues exactly one [fetch] call, with the
    arguments [req]. *)
Definition sends {X : Type} (c : M X) (w : World) (req : Request) : Prop :=
  sent (snd (c w)) = (sent w ++ [req])%list.

(** The service answers every request with the response [res]. *)
Definition replies (host : Host) (res : Response) : Prop :=
  forall req, fetch host req = Responded res.

(* ------------------------------------------------------------------ *)
(** ** The tool registry *)

Module Registry.

(** One entry of [inputSchema.properties]. *)
Record Property : Type := {
  p_name : string;
  p_type : string;
  p_items : option string;
  p_description : string
}.

(** One entry of the [tools] array. *)
Record Tool : Type := {
  t_name : string;
  t_description : string;
  t_schema_type : string;
  t_properties : list Property;
  t_required : list string
}.

(** The handler of [ListToolsRequestSchema]: a constant. *)
Definition ListTools : list Tool :=
  [ {| t_name := "velixar_store";
       t_description := "Store a memory for later retrieval. Use for important facts, user preferences, project context, or anything worth remembering.";
       t_schema_type := "object";
       t_properties :=
         [ {| p_name := "content"; p_type := "string"; p_items := None;
              p_description := "The memory content to store" |};
           {| p_name := "tags"; p_type := "array"; p_items := Some "string";
              p_description := "Optional tags for categorization" |};
           {| p_name := "tier"; p_type := "number"; p_items := None;
              p_description := "Memory tier: 0=pinned, 1=session, 2=semantic (default), 3=org" |} ];
       t_required := ["content"] |};
    {| t_name := "velixar_search";
       t_description := "Search stored memories by semantic similarity. Use to recall past context, preferences, or facts.";
       t_schema_type := "object";
       t_properties :=
         [ {| p_name := "query"; p_type := "string"; p_items := None;
              p_description := "Search query" |};
           {| p_name := "limit"; p_type := "number"; p_items := None;
              p_description := "Max results (default 5)" |} ];
       t_required := ["query"] |};
    {| t_name := "velixar_delete";
       t_description := "Delete a memory by ID. Use velixar_list to find memory IDs first.";
       t_schema_type := "object";
       t_properties :=
         [ {| p_name := "id"; p_type := "string"; p_items := None;
              p_description := "Memory ID to delete" |} ];
       t_required := ["id"] |};
    {| t_name := "velixar_list";
       t_description := "List memories with pagination. Returns full metadata including IDs, tags, salience, and timestamps.";
       t_schema_type := "object";
       t_properties :=
         [ {| p_name := "limit"; p_type := "number"; p_items := None;
              p_description := "Max results (default 10)" |};
           {| p_name := "cursor"; p_type := "string"; p_items := None;
              p_description := "Pagination cursor from previous response" |} ];
       t_required := [] |};
    {| t_name := "velixar_update";
       t_description := "Update an existing memory's content or tags. Use velixar_list to find memory IDs first.";
       t_schema_type := "object";
       t_properties :=
         [ {| p_name := "id"; p_type := "string"; p_items := None;
              p_description := "Memory ID to update" |};
           {| p_name := "content"; p_type := "string"; p_items := None;
              p_description := "New content" |};
           {| p_name := "tags"; p_type := "array"; p_items := Some "string";
              p_description := "New tags" |} ];
       t_required := ["id"] |} ].

(** The declaration of the tool named [name], if there is one. *)
Definition declared (name : string) : option Tool :=
  find (fun t => String.eqb (t_name t) name) ListTools.

End Registry.

(* ------------------------------------------------------------------ *)
(** ** Further predicates on strings, requests and handler code *)

(** Every character of [s] passes the test [p]. *)
Fixpoint all_chars (p : ascii -> bool) (s : string) : bool :=
  match s with
  | EmptyString => true
  | String c s' => p c && all_chars p s'
  end.

(** The characters a serialised query string is made of, apart from the
    [=] and [&] that separate names and values: letters, digits,
    [* - . _], the [+] of a space and the [%] of an escape. *)
Definition query_char (c : ascii) : bool :=
  let n := nat_of_ascii c in
  ((n =? 42) || (n =? 45) || (n =? 46) || (n =? 95) || (n =? 43) || (n =? 37)
   || ((48 <=? n) && (n <=? 57))
   || ((65 <=? n) && (n <=? 90))
   || ((97 <=? n) && (n <=? 122)))%nat.

(** The value of a hexadecimal digit. *)
Definition hex_value (c : ascii) : nat :=
  let n := nat_of_ascii c in
  if ((48 <=? n) && (n <=? 57))%nat then (n - 48)%nat
  else if ((65 <=? n) && (n <=? 70))%nat then (n - 55)%nat
  else (n - 87)%nat.

(** The parser that undoes [Url.encode]: [+] is a space and [%XY] the
    byte with the hexadecimal digits [X] and [Y].  It is not part of the
    program; it is what the receiving side applies. *)
Fixpoint percent_decode (s : string) : string :=
  match s with
  | EmptyString => ""
  | String c s' =>
      if (nat_of_ascii c =? 43)%nat then String " " (percent_decode s')
      else if (nat_of_ascii c =? 37)%nat then
        match s' with
        | String x (String y rest) =>
            String (ascii_of_nat (16 * hex_value x + hex_value y))
              (percent_decode rest)
        | _ => String c (percent_decode s')
        end
      else String c (percent_decode s')
  end.

(** A request as [apiRequest] builds it when its caller passes no
    headers: addressed to the configured base URL, with the bearer token
    and the JSON content type. *)
Definition authorized (cfg : Config) (req : Request) : Prop :=
  headers req = [("authorization", "Bearer " ++ API_KEY cfg);
                 ("Content-Type", "application/json")]
  /\ exists path, url req = API_BASE cfg ++ path.

(** The one request of [fetchRecall]. *)
Definition recall_request (cfg : Config) : Request :=
  build_request cfg
    ("/memory/list?user_id=" ++ Url.encode (USER_ID cfg) ++ "&limit="
       ++ Url.encode (NumberToString (RECALL_LIMIT cfg)))
    no_options.

(** Whatever [c] adds to the log of [fetch] calls satisfies [P]. *)
Definition appends {X : Type} (P : Request -> Prop) (c : M X) : Prop :=
  forall w, exists reqs,
    sent (snd (c w)) = (sent w ++ reqs)%list /\ Forall P reqs.

(** [c] leaves the world alone or issues one [fetch] call, and does
    nothing else to the world. *)
Definition at_most_one_fetch {X : Type} (c : M X) : Prop :=
  forall w, snd (c w) = w \/ exists req, snd (c w) = log req w.

(** When [c] returns, it returns an unflagged text. *)
Definition returns_success (c : M ToolResult) : Prop :=
  forall w r, fst (c w) = inr r -> exists t, r = success t.

(** The service cannot be reached: every [fetch] call is rejected with
    the error [e]. *)
Definition rejects (host : Host) (e : Exn) : Prop :=
  forall req, fetch host req = Rejected e.

(* ------------------------------------------------------------------ *)
(** * Properties *)

(** ** Facts about the string helpers *)

Section StrFacts.

Lemma app_assoc_str (a b c : string) : (a ++ b) ++ c = a ++ (b ++ c).
Proof. induction a as [|x a IH]; simpl; [reflexivity | now rewrite IH]. Qed.

Lemma app_nil_r_str (a : string) : a ++ "" = a.
Proof. induction a as [|x a IH]; simpl; [reflexivity | now rewrite IH]. Qed.

Lemma take_length_le (n : nat) (s : string) :
  (String.length (Str.take n s) <= n)%nat.
Proof.
  revert s; induction n as [|n IH]; intros [|c s]; simpl; try lia.
  specialize (IH s); lia.
Qed.

Lemma take_is_prefix (n : nat) (s : string) :
  exists rest, s = Str.take n s ++ rest.
Proof.
  revert s; induction n as [|n IH]; intros [|c s]; simpl.
  - now exists "".
  - now exists (String c s).
  - now exists "".
  - destruct (IH s) as [rest E]. exists rest. now rewrite <- E.
Qed.

Lemma take_short (n : nat) (s : string) :
  (String.length s <= n)%nat -> Str.take n s = s.
Proof.
  revert s; induction n as [|n IH]; intros [|c s]; simpl; intros H;
    try reflexivity; try lia.
  rewrite IH; [reflexivity | lia].
Qed.

Lemma take_long (n : nat) (s : string) :
  (n <= String.length s)%nat -> String.length (Str.take n s) = n.
Proof.
  revert s; induction n as [|n IH]; intros [|c s]; simpl; intros H;
    try reflexivity; try lia.
  rewrite IH; [reflexivity | lia].
Qed.

Lemma prefix_iff (a b : string) :
  prefix a b = true <-> exists rest, b = a ++ rest.
Proof.
  revert b; induction a as [|x a IH]; intros b; simpl.
  - split; [intros _; now exists b | intros _; now destruct b].
  - destruct b as [|y b]; simpl.
    + split; [discriminate | intros [rest E]; discriminate].
    + destruct (Ascii.ascii_dec x y) as [->|N].
      * rewrite IH. split; intros [rest E]; exists rest; congruence.
      * split; [discriminate | intros [rest E]; congruence].
Qed.

Lemma includes_iff (needle hay : string) :
  Str.includes needle hay = true <-> Str.Contains hay needle.
Proof.
  unfold Str.Contains. induction hay as [|c hay IH]; cbn [Str.includes].
  - rewrite orb_false_r, prefix_iff. split.
    + intros [rest E]. now exists "", rest.
    + intros [[|x before] [after E]]; [now exists after | discriminate].
  - rewrite orb_true_iff, IH, prefix_iff. split.
    + intros [[rest E] | (before & after & E)].
      * now exists "", rest.
      * exists (String c before), after. simpl. now rewrite E.
    + intros [[|x before] [after E]].
      * left. now exists after.
      * right. exists before, after. simpl in E. congruence.
Qed.

Lemma ends_with_iff (needle hay : string) :
  Str.ends_with needle hay = true <-> Str.EndsWith hay needle.
Proof.
  unfold Str.EndsWith. induction hay as [|c hay IH]; cbn [Str.ends_with].
  - rewrite orb_false_r, String.eqb_eq. split.
    + intros ->. now exists "".
    + intros [[|x before] E]; simpl in E; [congruence|].
      discriminate.
  - rewrite orb_true_iff, IH, String.eqb_eq. split.
    + intros [-> | [before E]].
      * now exists "".
      * exists (String c before). simpl. now rewrite E.
    + intros [[|x before] E]; simpl in E.
      * now left.
      * right. exists before. congruence.
Qed.

Lemma Contains_middle (a needle b : string) :
  Str.Contains (a ++ needle ++ b) needle.
Proof. now exists a, b. Qed.

Lemma Contains_inside (a b c needle : string) :
  Str.Contains b needle -> Str.Contains (a ++ b ++ c) needle.
Proof.
  intros (x & y & ->). exists (a ++ x), (y ++ c).
  now rewrite !app_assoc_str.
Qed.

End StrFacts.

(** ** The HTTP client wrapper *)

Section Wrapper.

Variable cfg : Config.
Variable host : Host.

(** One call of the wrapper is one [fetch] call, and its outcome is
    decided by how that call settles. *)
Lemma apiRequest_eq (path : string) (options : Options) (w : World) :
  apiRequest cfg host path options w =
    (match fetch host (build_request cfg path options) with
     | Rejected e =>
         inl (if String.eqb (name e) "AbortError"
              then Error ("API timeout after " ++ Str.of_Z TIMEOUT_MS ++ "ms")
              else e)
     | Responded res =>
         if ok res then body_json res else inl (status_error res)
     end,
     log (build_request cfg path options) w).
Proof.
  unfold apiRequest, try_catch, await_fetch, throw, lift. simpl.
  destruct (fetch host (build_request cfg path options)) as [e | res].
  - destruct (String.eqb (name e) "AbortError"); reflexivity.
  - destruct (ok res); reflexivity.
Qed.

Lemma apiRequest_world (path : string) (options : Options) (w : World) :
  snd (apiRequest cfg host path options w) = log (build_request cfg path options) w.
Proof. now rewrite apiRequest_eq. Qed.

End Wrapper.

(** C7.  When the response to the wrapper's request has a non-success
    status, the wrapper throws an [Error] whose message is ["API "], the
    status code, [": "] and an excerpt of the response body: a prefix of
    the body of at most 200 characters, the whole body when that is no
    longer than 200, and exactly 200 characters otherwise.  (The body is
    what [text()] gives, or the empty string when reading it fails.) *)
Theorem apiRequest_non_success_status :
  forall (cfg : Config) (host : Host) (path : string) (options : Options)
         (w : World) (res : Response),
    fetch host (build_request cfg path options) = Responded res ->
    ok res = false ->
    let body := match body_text res with inr t => t | inl _ => "" end in
    exists excerpt : string,
      fst (apiRequest cfg host path options w)
        = inl (Error ("API " ++ Str.of_Z (status res) ++ ": " ++ excerpt))
      /\ (String.length excerpt <= 200)%nat
      /\ (exists rest, body = excerpt ++ rest)
      /\ ((String.length body <= 200)%nat -> excerpt = body)
      /\ ((200 <= String.length body)%nat -> String.length excerpt = 200%nat).
Proof.
  intros cfg host path options w res Hfetch Hok body.
  exists (Str.take 200 body).
  rewrite apiRequest_eq, Hfetch, Hok. cbn [fst]. unfold status_error. fold body.
  split; [reflexivity|].
  split; [apply take_length_le|].
  split; [apply take_is_prefix|].
  split; [apply take_short | apply take_long].
Qed.

(** A 500 response with a short body: the excerpt is the whole body. *)
Lemma apiRequest_non_success_status_witness :
  fetch (Samples.replying Samples.boom)
    (build_request Samples.cfg_default "/memory" no_options)
  = Responded Samples.boom
  /\ ok Samples.boom = false
  /\ exists excerpt : string,
      fst (apiRequest Samples.cfg_default (Samples.replying Samples.boom)
             "/memory" no_options initial)
        = inl (Error ("API " ++ Str.of_Z (status Samples.boom) ++ ": " ++ excerpt))
      /\ (String.length excerpt <= 200)%nat
      /\ (exists rest,
            match body_text Samples.boom with inr t => t | inl _ => "" end
            = excerpt ++ rest)
      /\ ((String.length
             (match body_text Samples.boom with inr t => t | inl _ => "" end)
           <= 200)%nat ->
          excerpt = match body_text Samples.boom with inr t => t | inl _ => "" end)
      /\ ((200 <= String.length
                    (match body_text Samples.boom with inr t => t | inl _ => "" end))%nat ->
          String.length excerpt = 200%nat).
Proof.
  split; [reflexivity|]. split; [reflexivity|].
  apply (apiRequest_non_success_status Samples.cfg_default
           (Samples.replying Samples.boom) "/memory" no_options initial
           Samples.boom); reflexivity.
Defined.

(** ** Reasoning rules for handler code *)

Section Rules.

Context {T A B : Type}.
Variable view : World -> T.

Lemma preserves_ret (a : A) : preserves view (ret a : M A).
Proof. intros w; reflexivity. Qed.

Lemma preserves_throw (e : Exn) : preserves view (throw e : M A).
Proof. intros w; reflexivity. Qed.

Lemma preserves_lift (c : Res A) : preserves view (lift c).
Proof. intros w; reflexivity. Qed.

Lemma preserves_get_recalled : preserves view get_recalled.
Proof. intros w; reflexivity. Qed.

Lemma preserves_bind (c : M A) (k : A -> M B) :
  preserves view c -> (forall a, preserves view (k a)) ->
  preserves view (bind c k).
Proof.
  intros Hc Hk w. simpl. specialize (Hc w).
  destruct (c w) as [[e | a] w']; simpl in *; [assumption|].
  now rewrite Hk.
Qed.

Lemma preserves_try (c : M A) (h : Exn -> M A) :
  preserves view c -> (forall e, preserves view (h e)) ->
  preserves view (try_catch c h).
Proof.
  intros Hc Hh w. unfold try_catch. specialize (Hc w).
  destruct (c w) as [[e | a] w']; simpl in *; [|assumption].
  now rewrite Hh.
Qed.

Lemma preserves_if (b : bool) (c1 c2 : M A) :
  preserves view c1 -> preserves view c2 ->
  preserves view (if b then c1 else c2).
Proof. now destruct b. Qed.

End Rules.

(** After an effect-free continuation the world is the one its
    predecessor left. *)
Lemma snd_bind_effect_free {A B : Type} (c : M A) (k : A -> M B) (w : World) :
  (forall a, effect_free (k a)) -> snd (bind c k w) = snd (c w).
Proof.
  intros Hk. simpl. destruct (c w) as [[e | a] w']; [reflexivity | apply Hk].
Qed.

Lemma snd_try_effect_free {A : Type} (c : M A) (h : Exn -> M A) (w : World) :
  (forall e, effect_free (h e)) -> snd (try_catch c h w) = snd (c w).
Proof.
  intros Hh. unfold try_catch. destruct (c w) as [[e | a] w']; [apply Hh | reflexivity].
Qed.

Lemma keeps_apiRequest (cfg : Config) (host : Host) (path : string) (o : Options) :
  keeps_slot (apiRequest cfg host path o).
Proof. intros w. now rewrite apiRequest_world. Qed.

Create HintDb frame.
#[export] Hint Resolve preserves_ret preserves_throw preserves_lift
  preserves_get_recalled keeps_apiRequest : frame.

(** Walk through a handler, statement by statement. *)
Ltac frame :=
  repeat first
    [ solve [auto with frame]
    | apply preserves_bind; [| intro]
    | apply preserves_try; [| intro]
    | apply preserves_if ].

Section Frames.

Variable cfg : Config.
Variable host : Host.

(** No tool writes the prefetch slot. *)
Lemma keeps_CallTool (name : string) (args : JsVal) :
  keeps_slot (CallTool cfg host name args).
Proof.
  unfold CallTool, dispatch, on_error, velixar_store, velixar_search,
    velixar_delete, velixar_list, velixar_update, check_error.
  frame.
Qed.

Lemma keeps_ListResources : keeps_slot (ListResources cfg).
Proof. unfold ListResources. frame. Qed.

(** With auto-recall off, [fetchRecall] does nothing at all. *)
Lemma fetchRecall_disabled (w : World) :
  AUTO_RECALL cfg = false -> fetchRecall cfg host w = (inr tt, w).
Proof. intros H. unfold fetchRecall. now rewrite H. Qed.

End Frames.

(** ** The dispatch boundary *)

Section TextResults.

Lemma text_success (t : string) : returns_text (ret (success t)).
Proof. intros w r E. injection E as <-. eauto. Qed.

Lemma text_failure (t : string) : returns_text (ret (failure t)).
Proof. intros w r E. injection E as <-. eauto. Qed.

Lemma text_throw (e : Exn) : returns_text (throw e).
Proof. intros w r E. discriminate. Qed.

Lemma text_bind {A : Type} (c : M A) (k : A -> M ToolResult) :
  (forall a, returns_text (k a)) -> returns_text (bind c k).
Proof.
  intros Hk w r. simpl.
  destruct (c w) as [[e | a] w']; [discriminate | apply Hk].
Qed.

Lemma text_if (b : bool) (c1 c2 : M ToolResult) :
  returns_text c1 -> returns_text c2 -> returns_text (if b then c1 else c2).
Proof. now destruct b. Qed.

End TextResults.

Create HintDb text.
#[export] Hint Resolve text_success text_failure text_throw : text.

Ltac text_results :=
  repeat first
    [ solve [auto with text]
    | apply text_bind; intro
    | apply text_if ].

Lemma returns_text_dispatch (cfg : Config) (host : Host) (name : string) (args : JsVal) :
  returns_text (dispatch cfg host name args).
Proof.
  unfold dispatch, velixar_store, velixar_search, velixar_delete, velixar_list,
    velixar_update.
  text_results.
Qed.

(** C3.  Whatever the tool name, the arguments, the state and the way the
    service behaves, the tool handler returns normally, and what it
    returns is a single text payload with the error flag clear
    ([success]) or set ([failure]). *)
Theorem CallTool_never_throws :
  forall (cfg : Config) (host : Host) (name : string) (args : JsVal) (w : World),
    exists t : string,
      fst (CallTool cfg host name args w) = inr (success t)
      \/ fst (CallTool cfg host name args w) = inr (failure t).
Proof.
  intros cfg host name args w.
  unfold CallTool, try_catch.
  destruct (dispatch cfg host name args w) as [[e | r] w'] eqn:E.
  - eexists. right. reflexivity.
  - apply (f_equal fst) in E. cbn [fst] in *.
    destruct (returns_text_dispatch cfg host name args w r E) as [t [-> | ->]];
      exists t; [left | right]; reflexivity.
Qed.

(** ** The prefetch slot with auto-recall off *)

Section NoRecall.

Variable cfg : Config.
Variable host : Host.
Hypothesis disabled : AUTO_RECALL cfg = false.

(** Reading the resource from a world whose slot is null: the on-demand
    [fetchRecall()] returns at once, nothing is fetched, and the empty
    rendering is replaced by the placeholder. *)
Lemma ReadResource_null_slot (w : World) :
  _recalledMemories w = JNull ->
  ReadResource cfg host recent_uri w
    = (inr [{| c_uri := recent_uri;
               c_mimeType := "text/plain";
               c_text := "No memories found." |}], w).
Proof.
  intros Hnull. unfold ReadResource, get_recalled. simpl.
  rewrite Hnull. simpl.
  rewrite (fetchRecall_disabled cfg host w disabled).
  rewrite Hnull. reflexivity.
Qed.

Lemma ReadResource_unknown (uri : string) (w : World) :
  String.eqb uri recent_uri = false ->
  ReadResource cfg host uri w = (inl (Error ("Unknown resource: " ++ uri)), w).
Proof. intros H. unfold ReadResource. now rewrite H. Qed.

(** Nothing ever writes the slot. *)
Lemma slot_stays_null (w : World) :
  reachable cfg host w -> _recalledMemories w = JNull.
Proof.
  induction 1 as [| w Hw IH | w rq Hw IH].
  - reflexivity.
  - now rewrite (fetchRecall_disabled cfg host w disabled).
  - destruct rq as [| uri | name args]; simpl.
    + pose proof (keeps_ListResources cfg w) as K.
      destruct (ListResources cfg w) as [[e | rs] w']; simpl in *; congruence.
    + destruct (String.eqb uri recent_uri) eqn:U.
      * apply String.eqb_eq in U. subst uri.
        now rewrite (ReadResource_null_slot w IH).
      * now rewrite (ReadResource_unknown uri w U).
    + pose proof (keeps_CallTool cfg host name args w) as K.
      destruct (CallTool cfg host name args w) as [[e | r] w']; simpl in *;
        congruence.
Qed.

End NoRecall.

(** C9.  With auto-recall disabled, in every state the server can reach,
    the prefetch slot is null, the recent-memories resource is not
    listed, and reading [velixar://memories/recent] returns normally with
    the text ["No memories found."], without issuing a request and
    without changing the state. *)
Theorem read_recent_with_recall_disabled :
  forall (cfg : Config) (host : Host) (w : World),
    AUTO_RECALL cfg = false ->
    reachable cfg host w ->
    _recalledMemories w = JNull
    /\ fetchRecall cfg host w = (inr tt, w)
    /\ ReadResource cfg host "velixar://memories/recent" w
       = (inr [{| c_uri := "velixar://memories/recent";
                  c_mimeType := "text/plain";
                  c_text := "No memories found." |}], w)
    /\ ListResources cfg w = (inr [], w).
Proof.
  intros cfg host w Hoff Hreach.
  pose proof (slot_stays_null cfg host Hoff w Hreach) as Hnull.
  split; [assumption|].
  split; [now apply fetchRecall_disabled|].
  split; [now apply ReadResource_null_slot|].
  unfold ListResources. now rewrite Hoff.
Qed.

(** The state after one list invocation, with auto-recall off and the
    service out of reach. *)
Lemma read_recent_with_recall_disabled_witness :
  AUTO_RECALL Samples.cfg_no_recall = false
  /\ reachable Samples.cfg_no_recall Samples.unreachable
       (snd (handle Samples.cfg_no_recall Samples.unreachable
               (CallToolRequest "velixar_list" (JObj [])) initial))
  /\ (_recalledMemories
        (snd (handle Samples.cfg_no_recall Samples.unreachable
                (CallToolRequest "velixar_list" (JObj [])) initial)) = JNull
      /\ fetchRecall Samples.cfg_no_recall Samples.unreachable
           (snd (handle Samples.cfg_no_recall Samples.unreachable
                   (CallToolRequest "velixar_list" (JObj [])) initial))
         = (inr tt,
            snd (handle Samples.cfg_no_recall Samples.unreachable
                   (CallToolRequest "velixar_list" (JObj [])) initial))
      /\ ReadResource Samples.cfg_no_recall Samples.unreachable
           "velixar://memories/recent"
           (snd (handle Samples.cfg_no_recall Samples.unreachable
                   (CallToolRequest "velixar_list" (JObj [])) initial))
         = (inr [{| c_uri := "velixar://memories/recent";
                    c_mimeType := "text/plain";
                    c_text := "No memories found." |}],
            snd (handle Samples.cfg_no_recall Samples.unreachable
                   (CallToolRequest "velixar_list" (JObj [])) initial))
      /\ ListResources Samples.cfg_no_recall
           (snd (handle Samples.cfg_no_recall Samples.unreachable
                   (CallToolRequest "velixar_list" (JObj [])) initial))
         = (inr [],
            snd (handle Samples.cfg_no_recall Samples.unreachable
                   (CallToolRequest "velixar_list" (JObj [])) initial))).
Proof.
  split; [reflexivity|].
  split; [apply reach_handle, reach_initial|].
  apply (read_recent_with_recall_disabled Samples.cfg_no_recall Samples.unreachable
           (snd (handle Samples.cfg_no_recall Samples.unreachable
                   (CallToolRequest "velixar_list" (JObj [])) initial))
           eq_refl (reach_handle _ _ _ _ (reach_initial _ _))).
Defined.

(** ** What the tools transmit *)

(** Reading a property of an arguments object never throws. *)
Lemma bind_lift_prop {B : Type} (fields : list (string * JsVal)) (k : string)
      (f : JsVal -> M B) (w : World) :
  bind (lift (prop (JObj fields) k)) f w = f (field fields k) w.
Proof. reflexivity. Qed.

Ltac read_args := repeat (rewrite bind_lift_prop; cbv beta).

Section Transmitted.

Variable cfg : Config.
Variable host : Host.

(** The [catch] clause only builds a result. *)
Lemma CallTool_world (name : string) (args : JsVal) (w : World) :
  snd (CallTool cfg host name args w) = snd (dispatch cfg host name args w).
Proof.
  unfold CallTool. apply snd_try_effect_free. intro e. unfold on_error. frame.
Qed.

Lemma check_error_effect_free (result : JsVal) : effect_free (check_error result).
Proof. unfold check_error. frame. Qed.

Hint Resolve check_error_effect_free : frame.

(** The store branch issues one request: a POST of the payload. *)
Lemma velixar_store_world (fields : list (string * JsVal)) (w : World) :
  snd (velixar_store cfg host (JObj fields) w)
    = log (build_request cfg "/memory"
             {| o_method := Some "POST";
                o_body := JSON_stringify
                            (store_payload cfg (field fields "content")
                               (field fields "tier") (field fields "tags"));
                o_headers := [] |}) w.
Proof.
  unfold velixar_store. read_args.
  rewrite snd_bind_effect_free by (intro; frame).
  apply apiRequest_world.
Qed.

End Transmitted.



(** *** The update branch *)

Section ObjectFacts.

Lemma lookup_In (k : string) (v : JsVal) (fields : list (string * JsVal)) :
  lookup k fields = Some v -> In (k, v) fields.
Proof.
  induction fields as [| [k' v'] rest IH]; simpl; [discriminate|].
  destruct (String.eqb_spec k k') as [-> | N].
  - intros [= ->]. now left.
  - intros H. right. now apply IH.
Qed.

Lemma lookup_remove_same (k : string) (fields : list (string * JsVal)) :
  lookup k (remove k fields) = None.
Proof.
  induction fields as [| [k' v'] rest IH]; simpl; [reflexivity|].
  destruct (String.eqb_spec k k') as [-> | N]; [assumption|].
  simpl. destruct (String.eqb_spec k k'); [contradiction | assumption].
Qed.

Lemma lookup_remove_other (k k' : string) (fields : list (string * JsVal)) :
  k <> k' -> lookup k (remove k' fields) = lookup k fields.
Proof.
  intros N. induction fields as [| [k0 v0] rest IH]; simpl; [reflexivity|].
  destruct (String.eqb_spec k' k0) as [-> | N'].
  - destruct (String.eqb_spec k k0); [contradiction | assumption].
  - simpl. now rewrite IH.
Qed.

Lemma field_remove_same (k : string) (fields : list (string * JsVal)) :
  field (remove k fields) k = JUndefined.
Proof. unfold field. now rewrite lookup_remove_same. Qed.

Lemma field_remove_other (k k' : string) (fields : list (string * JsVal)) :
  k <> k' -> field (remove k' fields) k = field fields k.
Proof. intros N. unfold field. now rewrite lookup_remove_other. Qed.

(** A truthy property value is a supplied one, and is not null. *)
Lemma truthy_field (k : string) (fields : list (string * JsVal)) :
  truthy (field fields k) = true ->
  lookup k fields = Some (field fields k) /\ field fields k <> JNull.
Proof.
  unfold field. destruct (lookup k fields) as [v |]; [| discriminate].
  intros H. split; [reflexivity|]. now destruct v.
Qed.

(** [JSON.stringify] writes every truthy value. *)
Lemma truthy_is_written (v : JsVal) :
  truthy v = true -> JSON_stringify v <> None.
Proof.
  destruct v as [| | [|] | [|z] | s | elems | fields]; simpl;
    intros H; discriminate.
Qed.

End ObjectFacts.

Section Update.

Variable cfg : Config.
Variable host : Host.

(** The update branch issues one request: a PATCH of the payload to the
    item's path. *)
Lemma velixar_update_world (fields : list (string * JsVal)) (w : World) :
  snd (velixar_update cfg host (JObj fields) w)
    = log (build_request cfg ("/memory/" ++ ToString (field fields "id"))
             {| o_method := Some "PATCH";
                o_body := JSON_stringify
                            (JObj (update_payload cfg (field fields "content")
                                     (field fields "tags")));
                o_headers := [] |}) w.
Proof.
  unfold velixar_update. read_args.
  rewrite snd_bind_effect_free.
  - apply apiRequest_world.
  - intro result. apply preserves_bind; [apply check_error_effect_free|].
    intros _. frame.
Qed.

(** The payload holds the user scope, and a [content] or [tags] entry
    only for a truthy argument, with that argument as its value. *)
Lemma update_payload_entries (content tags : JsVal) (k : string) (v : JsVal) :
  In (k, v) (update_payload cfg content tags) ->
  (k = "user_id" /\ v = JStr (USER_ID cfg))
  \/ (k = "content" /\ v = content /\ truthy content = true)
  \/ (k = "tags" /\ v = tags /\ truthy tags = true).
Proof.
  unfold update_payload.
  destruct (truthy content) eqn:C, (truthy tags) eqn:G; simpl;
    intros H; repeat destruct H as [H | H]; try contradiction;
      injection H as <- <-; auto.
Qed.

Lemma update_payload_falsy_content (content tags : JsVal) :
  truthy content = false ->
  update_payload cfg content tags = update_payload cfg JUndefined tags.
Proof. intros H. unfold update_payload. now rewrite H. Qed.

End Update.




(** ** What the tools render *)

Section Exchange.

Variable cfg : Config.
Variable host : Host.
Variable res : Response.
Hypothesis answered : replies host res.

Lemma apiRequest_replied (path : string) (o : Options) (w : World) :
  apiRequest cfg host path o w
    = (if ok res then body_json res else inl (status_error res),
       log (build_request cfg path o) w).
Proof. now rewrite apiRequest_eq, answered. Qed.

End Exchange.

(** Run a handler on an arguments object against a service that always
    replies [res]. *)
Ltac run_with answered :=
  read_args;
  cbn [bind Monad_M];
  rewrite (apiRequest_replied _ _ _ answered).




(** Step through a handler that was answered with a success status and
    the decoded object [rfields] reporting no error. *)
Ltac after_reply Hrep Hok Hjson Herr :=
  run_with Hrep;
  rewrite Hok, Hjson; unfold check_error, lift; cbn [prop bind Monad_M];
  rewrite Herr; cbn [bind Monad_M ret].

Section ErrorSurfacing.

Variable cfg : Config.
Variable host : Host.
Variable res : Response.
Hypothesis answered : replies host res.

(** A non-success status ends every tool in the [catch] clause, with
    the wrapper's error. *)
Lemma CallTool_status_error (name : string) (fields : list (string * JsVal))
      (w : World) :
  In name tool_names ->
  ok res = false ->
  fst (CallTool cfg host name (JObj fields) w)
    = fst (on_error (status_error res) w).
Proof.
  intros Hname Hok. unfold CallTool, try_catch.
  repeat destruct Hname as [<- | Hname]; try contradiction;
    [ change (dispatch cfg host "velixar_store" (JObj fields))
        with (velixar_store cfg host (JObj fields)); unfold velixar_store
    | change (dispatch cfg host "velixar_search" (JObj fields))
        with (velixar_search cfg host (JObj fields)); unfold velixar_search
    | change (dispatch cfg host "velixar_delete" (JObj fields))
        with (velixar_delete cfg host (JObj fields)); unfold velixar_delete
    | change (dispatch cfg host "velixar_list" (JObj fields))
        with (velixar_list cfg host (JObj fields)); unfold velixar_list
    | change (dispatch cfg host "velixar_update" (JObj fields))
        with (velixar_update cfg host (JObj fields)); unfold velixar_update ];
    run_with answered; rewrite Hok; reflexivity.
Qed.

(** A truthy [error] in a decoded success response ends every tool in
    the [catch] clause, with that value as the message. *)
Lemma CallTool_error_field (name : string) (fields : list (string * JsVal))
      (w : World) (v e : JsVal) :
  In name tool_names ->
  ok res = true ->
  body_json res = inr v ->
  prop v "error" = inr e ->
  truthy e = true ->
  fst (CallTool cfg host name (JObj fields) w)
    = fst (on_error (Error (ToString e)) w).
Proof.
  intros Hname Hok Hjson Hprop Htruthy. unfold CallTool, try_catch.
  repeat destruct Hname as [<- | Hname]; try contradiction;
    [ change (dispatch cfg host "velixar_store" (JObj fields))
        with (velixar_store cfg host (JObj fields)); unfold velixar_store
    | change (dispatch cfg host "velixar_search" (JObj fields))
        with (velixar_search cfg host (JObj fields)); unfold velixar_search
    | change (dispatch cfg host "velixar_delete" (JObj fields))
        with (velixar_delete cfg host (JObj fields)); unfold velixar_delete
    | change (dispatch cfg host "velixar_list" (JObj fields))
        with (velixar_list cfg host (JObj fields)); unfold velixar_list
    | change (dispatch cfg host "velixar_update" (JObj fields))
        with (velixar_update cfg host (JObj fields)); unfold velixar_update ];
    run_with answered; rewrite Hok, Hjson; unfold check_error, lift;
    cbn [bind Monad_M]; rewrite Hprop; cbn [bind Monad_M]; rewrite Htruthy;
    reflexivity.
Qed.

End ErrorSurfacing.




(** *** Rendering item by item *)

Section Rendering.

Lemma call_map_array (expr : string) (ms : list JsVal) (f : JsVal -> Res string)
      (lines : list string) :
  Forall2 (fun m line => f m = inr line) ms lines ->
  call_map expr (JArr ms) f = inr lines.
Proof.
  induction 1 as [| m line ms lines Hm _ IH]; [reflexivity|].
  unfold call_map in *. cbn [fold_right]. now rewrite Hm, IH.
Qed.

(** A non-empty array has a truthy length. *)
Lemma array_length_truthy (ms : list JsVal) :
  ms <> [] ->
  exists len, opt_prop (JArr ms) "length" = inr len /\ truthy len = true.
Proof.
  intros Hne. eexists. split; [reflexivity|].
  destruct ms; [contradiction | reflexivity].
Qed.

Variable cfg : Config.
Variable host : Host.
Variable res : Response.
Variable rfields : list (string * JsVal).
Hypothesis answered : replies host res.
Hypothesis status_ok : ok res = true.
Hypothesis decoded : body_json res = inr (JObj rfields).
Hypothesis no_error : truthy (field rfields "error") = false.

(** The list branch prints the count, the optional cursor line and
    the lines of the items, in this order. *)
Lemma velixar_list_text (fields : list (string * JsVal)) (w : World)
      (ms : list JsVal) (lines : list string) :
  lookup "memories" rfields = Some (JArr ms) ->
  ms <> [] ->
  Forall2 (fun m line => list_line host m = inr line) ms lines ->
  fst (CallTool cfg host "velixar_list" (JObj fields) w)
    = inr (success
             (ToString (field rfields "count") ++ " memories:"
                ++ (if truthy (field rfields "cursor")
                    then Str.nl ++ "Next cursor: " ++ ToString (field rfields "cursor")
                    else "")
                ++ Str.nl ++ String.concat Str.nl lines)).
Proof.
  intros Hmem Hne Hlines.
  assert (Hfield : field rfields "memories" = JArr ms)
    by (unfold field; now rewrite Hmem).
  destruct (array_length_truthy ms Hne) as (len & Hlen & Htruthy).
  unfold CallTool, try_catch.
  change (dispatch cfg host "velixar_list" (JObj fields))
    with (velixar_list cfg host (JObj fields)).
  unfold velixar_list. after_reply answered status_ok decoded no_error.
  rewrite Hfield, Hlen, Htruthy. cbn [negb].
  now rewrite (call_map_array _ _ _ _ Hlines).
Qed.

(** The search branch prints the count and the lines of the items. *)
Lemma velixar_search_text (fields : list (string * JsVal)) (w : World)
      (ms : list JsVal) (lines : list string) :
  lookup "memories" rfields = Some (JArr ms) ->
  ms <> [] ->
  Forall2 (fun m line => search_line m = inr line) ms lines ->
  fst (CallTool cfg host "velixar_search" (JObj fields) w)
    = inr (success
             ("Found " ++ ToString (field rfields "count") ++ " memories:"
                ++ Str.nl ++ String.concat Str.nl lines)).
Proof.
  intros Hmem Hne Hlines.
  assert (Hfield : field rfields "memories" = JArr ms)
    by (unfold field; now rewrite Hmem).
  destruct (array_length_truthy ms Hne) as (len & Hlen & Htruthy).
  unfold CallTool, try_catch.
  change (dispatch cfg host "velixar_search" (JObj fields))
    with (velixar_search cfg host (JObj fields)).
  unfold velixar_search. after_reply answered status_ok decoded no_error.
  rewrite Hfield, Hlen, Htruthy. cbn [negb].
  now rewrite (call_map_array _ _ _ _ Hlines).
Qed.

End Rendering.




(** *** Scores and tiers *)

Section ScoreAndTier.

Lemma append_empty (a b : string) : a ++ b = "" -> a = "" /\ b = "".
Proof. destruct a; simpl; [auto | discriminate]. Qed.

Lemma concat_nonempty (sep x : string) (l : list string) :
  In x l -> x <> "" -> String.concat sep l <> "".
Proof.
  intros Hin Hx. induction l as [| a l IH]; [contradiction|].
  cbn [String.concat]. destruct l as [| b l].
  - destruct Hin as [-> | []]. assumption.
  - intros E. apply append_empty in E. destruct E as [Ea E].
    apply append_empty in E. destruct E as [_ E].
    destruct Hin as [-> | Hin]; [contradiction|].
    now apply IH.
Qed.

(** The callback of the search branch on a memory without a truthy
    score. *)
Lemma search_line_falsy_score (mf : list (string * JsVal)) :
  truthy (field mf "score") = false ->
  search_line (JObj mf) = inr ("• " ++ ToString (field mf "content")).
Proof.
  intros H. unfold search_line. cbn [prop bind Monad_Res ret]. rewrite H.
  now rewrite app_nil_r_str.
Qed.

(** The tags suffix of a memory whose [tags] is absent or an array. *)
Lemma tags_suffix_array (mf : list (string * JsVal)) :
  lookup "tags" mf = None \/ (exists ts, lookup "tags" mf = Some (JArr ts)) ->
  exists tags, tags_suffix (JObj mf) = inr tags.
Proof.
  unfold tags_suffix, field. cbn [prop bind Monad_Res].
  unfold field. intros [-> | [ts ->]].
  - now exists "".
  - destruct ts as [| t ts]; cbn; eauto.
Qed.

(** The callback of the resource reader on a memory of tier 0. *)
Lemma recent_line_tier_zero (mf : list (string * JsVal)) (tags : string) :
  lookup "tier" mf = Some (JNum (Fin 0)) ->
  tags_suffix (JObj mf) = inr tags ->
  recent_line (JObj mf)
    = inr (ToString (field mf "content") ++ tags ++ " (tier 0)").
Proof.
  intros Htier Htags.
  assert (Hfield : field mf "tier" = JNum (Fin 0))
    by (unfold field; now rewrite Htier).
  unfold recent_line. rewrite Htags.
  cbn [prop bind Monad_Res ret]. now rewrite Hfield.
Qed.

(** Reading the resource from a populated slot fetches nothing and
    prints the lines of the items between separator lines. *)
Lemma ReadResource_text (cfg : Config) (host : Host) (w : World)
      (ms : list JsVal) (lines : list string) :
  _recalledMemories w = JArr ms ->
  Forall2 (fun m line => recent_line m = inr line) ms lines ->
  String.concat (Str.nl ++ "---" ++ Str.nl) lines <> "" ->
  ReadResource cfg host recent_uri w
    = (inr [{| c_uri := recent_uri;
               c_mimeType := "text/plain";
               c_text := String.concat (Str.nl ++ "---" ++ Str.nl) lines |}], w).
Proof.
  intros Hslot Hlines Hne. unfold ReadResource, get_recalled.
  change (String.eqb recent_uri recent_uri) with true.
  cbn [bind Monad_M]. rewrite Hslot. cbn [truthy negb ret Monad_M or_else].
  unfold lift. rewrite Hslot. cbn [or_else truthy].
  rewrite (call_map_array _ _ _ _ Hlines).
  apply String.eqb_neq in Hne. now rewrite Hne.
Qed.

End ScoreAndTier.



(** ** The package's tests, replayed on the model *)

Section Tests.

Example test_store_sends_correct_POST_body :
  sent (snd (CallTool Samples.cfg_test (Samples.mock (JObj [("id", JStr "abc-123");
                                                      ("stored", JBool true)]))
               "velixar_store"
               (JObj [("content", JStr "test fact"); ("tags", JArr [JStr "a"]);
                      ("tier", JNum (Fin 0))]) initial))
  = [{| url := "https://api.velixarai.com/memory";
        method := Some "POST";
        body := JSON_stringify
                  (JObj [("content", JStr "test fact");
                         ("user_id", JStr "test-user");
                         ("tier", JNum (Fin 0));
                         ("tags", JArr [JStr "a"])]);
        headers := Samples.test_headers |}].
Proof. reflexivity. Qed.

Example test_search_passes_query_and_limit :
  map url
    (sent (snd (CallTool Samples.cfg_test
                  (Samples.mock (JObj [("memories", JArr [JObj [("content", JStr "found it")]]);
                               ("count", JNum (Fin 1))]))
                  "velixar_search"
                  (JObj [("query", JStr "test query"); ("limit", JNum (Fin 3))])
                  initial)))
  = ["https://api.velixarai.com/memory/search?q=test+query&user_id=test-user&limit=3"].
Proof. reflexivity. Qed.

Example test_list_passes_cursor :
  map url
    (sent (snd (CallTool Samples.cfg_test
                  (Samples.mock (JObj [("memories",
                                JArr [JObj [("id", JStr "x"); ("content", JStr "hi");
                                            ("tags", JArr [])]]);
                               ("count", JNum (Fin 1))]))
                  "velixar_list"
                  (JObj [("limit", JNum (Fin 5)); ("cursor", JStr "abc")])
                  initial)))
  = ["https://api.velixarai.com/memory/list?user_id=test-user&limit=5&cursor=abc"].
Proof. reflexivity. Qed.

Example test_list_empty :
  fst (CallTool Samples.cfg_test
         (Samples.mock (JObj [("memories", JArr []); ("count", JNum (Fin 0))]))
         "velixar_list" (JObj []) initial)
  = inr (success "No memories found.").
Proof. reflexivity. Qed.

Example test_update_sends_PATCH :
  sent (snd (CallTool Samples.cfg_test (Samples.mock (JObj [("updated", JBool true)]))
               "velixar_update"
               (JObj [("id", JStr "up-123"); ("content", JStr "new");
                      ("tags", JArr [JStr "x"])]) initial))
  = [{| url := "https://api.velixarai.com/memory/up-123";
        method := Some "PATCH";
        body := JSON_stringify
                  (JObj [("user_id", JStr "test-user");
                         ("content", JStr "new");
                         ("tags", JArr [JStr "x"])]);
        headers := Samples.test_headers |}].
Proof. reflexivity. Qed.

Example test_delete_sends_DELETE :
  CallTool Samples.cfg_test (Samples.mock (JObj [("deleted", JBool true)]))
    "velixar_delete" (JObj [("id", JStr "del-456")]) initial
  = (inr (success "✓ Deleted memory: del-456"),
     {| _recalledMemories := JNull;
        sent := [{| url := "https://api.velixarai.com/memory/del-456";
                    method := Some "DELETE";
                    body := None;
                    headers := Samples.test_headers |}] |}).
Proof. reflexivity. Qed.

Example test_store_returns_the_identifier :
  fst (CallTool Samples.cfg_test (Samples.mock (JObj [("id", JStr "m1")]))
         "velixar_store"
         (JObj [("content", JStr "db region note"); ("tier", JNum (Fin 0))]) initial)
  = inr (success "✓ Stored memory (id: m1)").
Proof. reflexivity. Qed.

Example test_store_without_identifier :
  fst (CallTool Samples.cfg_test (Samples.mock (JObj [("stored", JBool true)]))
         "velixar_store" (JObj [("content", JStr "x")]) initial)
  = inr (failure "Error: Store succeeded but no ID returned").
Proof. reflexivity. Qed.

Example test_unreachable_service :
  fst (CallTool Samples.cfg_test Samples.unreachable
         "velixar_delete" (JObj [("id", JStr "m1")]) initial)
  = inr (failure "Error: fetch failed").
Proof. reflexivity. Qed.

Example test_not_found_gets_the_hint :
  fst (CallTool Samples.cfg_test (Samples.mock (JObj [("error", JStr "memory not found")]))
         "velixar_delete" (JObj [("id", JStr "m1")]) initial)
  = inr (failure ("Error: memory not found" ++ primary_context_help)).
Proof. reflexivity. Qed.

End Tests.

(* ------------------------------------------------------------------ *)
(** * Further properties of the code *)

(** ** [apiRequest]: how a call can fail *)


(** ** The prefetch *)

Lemma recall_request_eq (cfg : Config) :
  build_request cfg
    ("/memory/list?" ++ Url.toString [("user_id", USER_ID cfg);
                                       ("limit", NumberToString (RECALL_LIMIT cfg))])
    no_options
  = recall_request cfg.
Proof.
  unfold recall_request, Url.toString. cbn [map String.concat fst snd].
  change (Url.encode "user_id") with "user_id".
  change (Url.encode "limit") with "limit".
  now rewrite !app_assoc_str.
Qed.

(** What [fetchRecall] does with auto-recall on, case by case. *)
Lemma fetchRecall_outcome :
  forall (cfg : Config) (host : Host) (w : World),
    AUTO_RECALL cfg = true ->
    exists slot : JsVal,
      fetchRecall cfg host w
        = (inr tt, {| _recalledMemories := slot;
                      sent := sent w ++ [recall_request cfg] |})
      /\ truthy slot = true
      /\ (forall res v m,
            fetch host (recall_request cfg) = Responded res ->
            ok res = true -> body_json res = inr v ->
            prop v "memories" = inr m -> truthy m = true -> slot = m)
      /\ (forall res v m,
            fetch host (recall_request cfg) = Responded res ->
            ok res = true -> body_json res = inr v ->
            prop v "memories" = inr m -> truthy m = false -> slot = JArr [])
      /\ (forall res v e,
            fetch host (recall_request cfg) = Responded res ->
            ok res = true -> body_json res = inr v ->
            prop v "memories" = inl e -> slot = JArr [])
      /\ (forall res e,
            fetch host (recall_request cfg) = Responded res ->
            ok res = true -> body_json res = inl e -> slot = JArr [])
      /\ (forall res,
            fetch host (recall_request cfg) = Responded res ->
            ok res = false -> slot = JArr [])
      /\ (forall e,
            fetch host (recall_request cfg) = Rejected e -> slot = JArr []).
Proof.
  intros cfg host w Hon. unfold fetchRecall. rewrite Hon. cbn [negb].
  unfold try_catch. cbn [bind Monad_M]. rewrite apiRequest_eq, recall_request_eq.
  unfold set_recalled, lift, log. cbn [sent _recalledMemories].
  destruct (fetch host (recall_request cfg)) as [e | res] eqn:F.
  - exists (JArr []). repeat split; try reflexivity; intros; congruence.
  - destruct (ok res) eqn:Hok.
    + destruct (body_json res) as [e | v] eqn:J.
      * exists (JArr []). repeat split; try reflexivity; intros; congruence.
      * destruct (prop v "memories") as [e | m] eqn:P.
        -- exists (JArr []). repeat split; try reflexivity; intros; congruence.
        -- unfold or_else. destruct (truthy m) eqn:T.
           ++ exists m. repeat split; try reflexivity; try assumption;
                intros; congruence.
           ++ exists (JArr []). repeat split; try reflexivity; intros; congruence.
    + exists (JArr []). repeat split; try reflexivity; intros; congruence.
Qed.


(** X2.  With auto-recall on, [fetchRecall] never throws and issues
    exactly one request, a GET of the list of the configured user with
    the configured limit.  It leaves a truthy value in the slot: the
    [memories] of the decoded response when that is truthy, and the
    empty array in every other case, whether the call was rejected, the
    status was not a success, the body did not decode, the decoded body
    was null, or it had no memories. *)
Theorem fetchRecall_fills_slot :
  forall (cfg : Config) (host : Host) (w : World),
    AUTO_RECALL cfg = true ->
    exists slot : JsVal,
      fetchRecall cfg host w
        = (inr tt, {| _recalledMemories := slot;
                      sent := sent w ++ [recall_request cfg] |})
      /\ truthy slot = true
      /\ (forall res v m,
            fetch host (recall_request cfg) = Responded res ->
            ok res = true -> body_json res = inr v ->
            prop v "memories" = inr m -> truthy m = true -> slot = m)
      /\ (forall res v m,
            fetch host (recall_request cfg) = Responded res ->
            ok res = true -> body_json res = inr v ->
            prop v "memories" = inr m -> truthy m = false -> slot = JArr [])
      /\ (forall res v e,
            fetch host (recall_request cfg) = Responded res ->
            ok res = true -> body_json res = inr v ->
            prop v "memories" = inl e -> slot = JArr [])
      /\ (forall res e,
            fetch host (recall_request cfg) = Responded res ->
            ok res = true -> body_json res = inl e -> slot = JArr [])
      /\ (forall res,
            fetch host (recall_request cfg) = Responded res ->
            ok res = false -> slot = JArr [])
      /\ (forall e,
            fetch host (recall_request cfg) = Rejected e -> slot = JArr []).
Proof.
  intros cfg host w Hon. exact (fetchRecall_outcome cfg host w Hon).
Qed.

(** The default configuration against a service out of reach. *)
Lemma fetchRecall_fills_slot_witness :
  AUTO_RECALL Samples.cfg_default = true
  /\ fetchRecall Samples.cfg_default Samples.unreachable initial
     = (inr tt,
        {| _recalledMemories := JArr [];
           sent := [recall_request Samples.cfg_default] |}).
Proof.
  split; [reflexivity|].
  destruct (fetchRecall_fills_slot Samples.cfg_default Samples.unreachable initial
              eq_refl) as (slot & Hrun & _ & _ & _ & _ & _ & _ & Hrej).
  rewrite Hrun. now rewrite (Hrej _ eq_refl).
Defined.

(** ** The snapshot, once taken *)

Section Snapshot.

Variable cfg : Config.
Variable host : Host.

(** Reading from a truthy slot touches nothing. *)
Lemma ReadResource_populated_world (uri : string) (w : World) :
  truthy (_recalledMemories w) = true ->
  snd (ReadResource cfg host uri w) = w.
Proof.
  intros Ht. unfold ReadResource.
  destruct (String.eqb uri recent_uri); [| reflexivity].
  unfold get_recalled, lift. cbn [bind Monad_M]. rewrite Ht. cbn [negb ret Monad_M].
  destruct (call_map "(_recalledMemories || [])"
              (or_else (_recalledMemories w) (JArr [])) recent_line);
    reflexivity.
Qed.

(** Reading from a slot that holds the empty array. *)
Lemma ReadResource_empty_slot (w : World) :
  _recalledMemories w = JArr [] ->
  ReadResource cfg host recent_uri w
    = (inr [{| c_uri := recent_uri;
               c_mimeType := "text/plain";
               c_text := "No memories found." |}], w).
Proof.
  intros Hslot. unfold ReadResource, get_recalled, lift.
  change (String.eqb recent_uri recent_uri) with true.
  cbn [bind Monad_M]. rewrite Hslot. cbn [truthy negb ret Monad_M].
  now rewrite Hslot.
Qed.

End Snapshot.

(** X3.  Once the slot holds a truthy value, no request changes it: a
    tool invocation, a resource listing and a resource read all leave
    the snapshot as it is, and a read or a listing leaves the whole
    state as it is, so the snapshot is never refreshed on demand. *)
Theorem populated_slot_is_not_refreshed :
  forall (cfg : Config) (host : Host) (w : World) (rq : ProtocolRequest),
    truthy (_recalledMemories w) = true ->
    _recalledMemories (snd (handle cfg host rq w)) = _recalledMemories w
    /\ (forall uri, snd (handle cfg host (ReadResourceRequest uri) w) = w)
    /\ snd (handle cfg host ListResourcesRequest w) = w.
Proof.
  intros cfg host w rq Ht.
  assert (Hread : forall uri, snd (handle cfg host (ReadResourceRequest uri) w) = w).
  { intros uri. cbn [handle bind Monad_M].
    pose proof (ReadResource_populated_world cfg host uri w Ht) as K.
    destruct (ReadResource cfg host uri w) as [[e | cs] w']; exact K. }
  assert (Hlist : snd (handle cfg host ListResourcesRequest w) = w).
  { cbn [handle bind Monad_M]. unfold ListResources.
    destruct (AUTO_RECALL cfg); [| reflexivity].
    unfold get_recalled, lift. cbn [negb bind Monad_M].
    destruct (opt_prop (_recalledMemories w) "length") as [e | len];
      [reflexivity|].
    destruct (truthy len); [| reflexivity]. cbn [negb].
    destruct (prop (_recalledMemories w) "length"); reflexivity. }
  split; [| split; assumption].
  destruct rq as [| uri | name args].
  - now rewrite Hlist.
  - now rewrite Hread.
  - cbn [handle bind Monad_M].
    pose proof (keeps_CallTool cfg host name args w) as K.
    destruct (CallTool cfg host name args w) as [[e | r] w']; exact K.
Qed.

(** A read of the recent memories from a populated state. *)
Lemma populated_slot_is_not_refreshed_witness :
  truthy (_recalledMemories Samples.populated) = true
  /\ snd (handle Samples.cfg_default Samples.unreachable
            (ReadResourceRequest "velixar://memories/recent") Samples.populated)
     = Samples.populated.
Proof.
  split; [reflexivity|].
  apply (proj1 (proj2 (populated_slot_is_not_refreshed Samples.cfg_default
                         Samples.unreachable Samples.populated
                         ListResourcesRequest eq_refl))).
Defined.

(** X4.  A prefetch that fails is not retried.  With auto-recall on and
    a service that rejects every call, the first read of the recent
    memories from the unfetched state issues the one prefetch request,
    stores the empty array and returns the placeholder; read again, it
    returns the placeholder without any request, and the resource is
    not listed. *)
Theorem failed_prefetch_is_not_retried :
  forall (cfg : Config) (host : Host) (e : Exn) (w : World),
    AUTO_RECALL cfg = true ->
    rejects host e ->
    _recalledMemories w = JNull ->
    let after := {| _recalledMemories := JArr [];
                    sent := sent w ++ [recall_request cfg] |} in
    let nothing := [{| c_uri := "velixar://memories/recent";
                       c_mimeType := "text/plain";
                       c_text := "No memories found." |}] in
    ReadResource cfg host "velixar://memories/recent" w = (inr nothing, after)
    /\ ReadResource cfg host "velixar://memories/recent" after = (inr nothing, after)
    /\ ListResources cfg after = (inr [], after).
Proof.
  intros cfg host e w Hon Hrej Hnull after nothing.
  destruct (fetchRecall_outcome cfg host w Hon)
    as (slot & Hrun & _ & _ & _ & _ & _ & _ & Hslot).
  rewrite (Hslot e (Hrej _)) in Hrun. fold after in Hrun.
  split; [| split].
  - unfold ReadResource, get_recalled, lift.
    change (String.eqb "velixar://memories/recent" recent_uri) with true.
    cbn [bind Monad_M]. rewrite Hnull. cbn [truthy negb]. rewrite Hrun.
    reflexivity.
  - now apply ReadResource_empty_slot.
  - unfold ListResources. rewrite Hon. reflexivity.
Qed.

(** The default configuration, a service out of reach, the initial
    state. *)
Lemma failed_prefetch_is_not_retried_witness :
  AUTO_RECALL Samples.cfg_default = true
  /\ rejects Samples.unreachable (TypeError "fetch failed")
  /\ _recalledMemories initial = JNull
  /\ ReadResource Samples.cfg_default Samples.unreachable
       "velixar://memories/recent"
       {| _recalledMemories := JArr [];
          sent := sent initial ++ [recall_request Samples.cfg_default] |}
     = (inr [{| c_uri := "velixar://memories/recent";
                c_mimeType := "text/plain";
                c_text := "No memories found." |}],
        {| _recalledMemories := JArr [];
           sent := sent initial ++ [recall_request Samples.cfg_default] |}).
Proof.
  split; [reflexivity|]. split; [intro req; reflexivity|].
  split; [reflexivity|].
  apply (proj1 (proj2 (failed_prefetch_is_not_retried Samples.cfg_default
                         Samples.unreachable (TypeError "fetch failed") initial
                         eq_refl (fun req => eq_refl) eq_refl))).
Defined.


(** ** Which requests the server issues *)

Section LogRules.

Context {A B : Type}.
Variable P : Request -> Prop.

Lemma appends_nothing (c : M A) :
  (forall w, sent (snd (c w)) = sent w) -> appends P c.
Proof.
  intros H w. exists []. split; [| constructor].
  now rewrite H, app_nil_r.
Qed.

Lemma appends_ret (a : A) : appends P (ret a : M A).
Proof. now apply appends_nothing. Qed.

Lemma appends_throw (e : Exn) : appends P (throw e : M A).
Proof. now apply appends_nothing. Qed.

Lemma appends_lift (c : Res A) : appends P (lift c).
Proof. now apply appends_nothing. Qed.

Lemma appends_bind (c : M A) (k : A -> M B) :
  appends P c -> (forall a, appends P (k a)) -> appends P (bind c k).
Proof.
  intros Hc Hk w. cbn [bind Monad_M].
  destruct (Hc w) as (reqs & E & F).
  destruct (c w) as [[e | a] w']; cbn [snd] in *; [now exists reqs|].
  destruct (Hk a w') as (reqs' & E' & F').
  exists (reqs ++ reqs')%list. split.
  - now rewrite E', E, app_assoc.
  - now apply Forall_app.
Qed.

Lemma appends_try (c : M A) (h : Exn -> M A) :
  appends P c -> (forall e, appends P (h e)) -> appends P (try_catch c h).
Proof.
  intros Hc Hh w. unfold try_catch.
  destruct (Hc w) as (reqs & E & F).
  destruct (c w) as [[e | a] w']; cbn [snd] in *; [| now exists reqs].
  destruct (Hh e w') as (reqs' & E' & F').
  exists (reqs ++ reqs')%list. split.
  - now rewrite E', E, app_assoc.
  - now apply Forall_app.
Qed.

Lemma appends_if (b : bool) (c1 c2 : M A) :
  appends P c1 -> appends P c2 -> appends P (if b then c1 else c2).
Proof. now destruct b. Qed.

End LogRules.

Lemma appends_get_recalled (P : Request -> Prop) : appends P get_recalled.
Proof. now apply appends_nothing. Qed.

Lemma appends_set_recalled (P : Request -> Prop) (v : JsVal) :
  appends P (set_recalled v).
Proof. now apply appends_nothing. Qed.

(** Without caller headers, the request of the wrapper is authorized. *)
Lemma build_request_authorized (cfg : Config) (path : string) (o : Options) :
  o_headers o = [] -> authorized cfg (build_request cfg path o).
Proof.
  intros H. unfold authorized, build_request. cbn [headers url]. rewrite H.
  split; [reflexivity | now exists path].
Qed.

Lemma appends_apiRequest (cfg : Config) (host : Host) (path : string) (o : Options) :
  o_headers o = [] -> appends (authorized cfg) (apiRequest cfg host path o).
Proof.
  intros H w. exists [build_request cfg path o]. rewrite apiRequest_world.
  split; [reflexivity|].
  constructor; [now apply build_request_authorized | constructor].
Qed.

Create HintDb log.
#[export] Hint Resolve appends_ret appends_throw appends_lift appends_get_recalled
  appends_set_recalled : log.

Ltac appending :=
  repeat first
    [ solve [auto with log]
    | apply appends_apiRequest; reflexivity
    | apply appends_bind; [| intro]
    | apply appends_try; [| intro]
    | apply appends_if ].

Section Issued.

Variable cfg : Config.
Variable host : Host.

Lemma appends_fetchRecall : appends (authorized cfg) (fetchRecall cfg host).
Proof. unfold fetchRecall. appending. Qed.

Lemma appends_CallTool (name : string) (args : JsVal) :
  appends (authorized cfg) (CallTool cfg host name args).
Proof.
  unfold CallTool, dispatch, on_error, velixar_store, velixar_search,
    velixar_delete, velixar_list, velixar_update, check_error.
  appending.
Qed.

Lemma appends_ReadResource (uri : string) :
  appends (authorized cfg) (ReadResource cfg host uri).
Proof.
  unfold ReadResource. apply appends_if; [| appending].
  apply appends_bind; [appending | intro].
  apply appends_bind; [| intro; appending].
  apply appends_if; [apply appends_fetchRecall | appending].
Qed.

Lemma appends_ListResources : appends (authorized cfg) (ListResources cfg).
Proof. unfold ListResources. appending. Qed.

Lemma appends_handle (rq : ProtocolRequest) :
  appends (authorized cfg) (handle cfg host rq).
Proof.
  destruct rq as [| uri | name args]; cbn [handle];
    (apply appends_bind; [| intro; appending]).
  - apply appends_ListResources.
  - apply appends_ReadResource.
  - apply appends_CallTool.
Qed.

End Issued.

(** X6.  Every request the server ever issues, from start-up through any
    sequence of protocol requests, goes to a path under the configured
    base URL and carries exactly the two headers
    [authorization: Bearer <key>] and [Content-Type: application/json]. *)
Theorem every_request_is_authorized :
  forall (cfg : Config) (host : Host) (w : World),
    reachable cfg host w ->
    Forall (authorized cfg) (sent w).
Proof.
  intros cfg host w Hreach.
  induction Hreach as [| w Hw IH | w rq Hw IH].
  - constructor.
  - destruct (appends_fetchRecall cfg host w) as (reqs & -> & F).
    now apply Forall_app.
  - destruct (appends_handle cfg host rq w) as (reqs & -> & F).
    now apply Forall_app.
Qed.

(** The state after the prefetch and one store invocation. *)
Lemma every_request_is_authorized_witness :
  reachable Samples.cfg_default Samples.unreachable
    (snd (handle Samples.cfg_default Samples.unreachable
            (CallToolRequest "velixar_store" (JObj [("content", JStr "x")]))
            (snd (fetchRecall Samples.cfg_default Samples.unreachable initial))))
  /\ Forall (authorized Samples.cfg_default)
       (sent (snd (handle Samples.cfg_default Samples.unreachable
                     (CallToolRequest "velixar_store" (JObj [("content", JStr "x")]))
                     (snd (fetchRecall Samples.cfg_default Samples.unreachable
                             initial))))).
Proof.
  split.
  - apply reach_handle, reach_prefetch, reach_initial.
  - apply (every_request_is_authorized Samples.cfg_default Samples.unreachable).
    apply reach_handle, reach_prefetch, reach_initial.
Defined.

(** ** One invocation, at most one request *)

Section FetchCount.

Context {A B : Type}.

Lemma one_fetch_pure (c : M A) : effect_free c -> at_most_one_fetch c.
Proof. intros H w. left. apply H. Qed.

Lemma one_fetch_bind_first (c : M A) (k : A -> M B) :
  effect_free c -> (forall a, at_most_one_fetch (k a)) ->
  at_most_one_fetch (bind c k).
Proof.
  intros Hc Hk w. cbn [bind Monad_M]. specialize (Hc w).
  destruct (c w) as [[e | a] w']; cbn [snd] in *; subst w'.
  - now left.
  - apply Hk.
Qed.

Lemma one_fetch_bind_rest (c : M A) (k : A -> M B) :
  at_most_one_fetch c -> (forall a, effect_free (k a)) ->
  at_most_one_fetch (bind c k).
Proof.
  intros Hc Hk w. rewrite snd_bind_effect_free by assumption. apply Hc.
Qed.

Lemma one_fetch_try (c : M A) (h : Exn -> M A) :
  at_most_one_fetch c -> (forall e, effect_free (h e)) ->
  at_most_one_fetch (try_catch c h).
Proof.
  intros Hc Hh w. rewrite snd_try_effect_free by assumption. apply Hc.
Qed.

Lemma one_fetch_if (b : bool) (c1 c2 : M A) :
  at_most_one_fetch c1 -> at_most_one_fetch c2 ->
  at_most_one_fetch (if b then c1 else c2).
Proof. now destruct b. Qed.

End FetchCount.

Lemma one_fetch_apiRequest (cfg : Config) (host : Host) (path : string)
      (o : Options) :
  at_most_one_fetch (apiRequest cfg host path o).
Proof. intros w. right. eexists. apply apiRequest_world. Qed.

(** A branch of the tool handler: reads of the arguments, then the one
    call of the wrapper, then the rendering. *)
Ltac one_fetch_branch :=
  cbv zeta;
  repeat (apply one_fetch_bind_first; [solve [frame] | intro]; cbv zeta);
  first
    [ apply one_fetch_bind_rest;
      [ apply one_fetch_apiRequest | intro; unfold check_error; frame ]
    | apply one_fetch_pure; frame ].

(** Pick the branch of a declared tool. *)
Ltac each_tool cfg host args Hname :=
  repeat destruct Hname as [<- | Hname]; try contradiction;
  [ change (dispatch cfg host "velixar_store" args)
      with (velixar_store cfg host args); unfold velixar_store
  | change (dispatch cfg host "velixar_search" args)
      with (velixar_search cfg host args); unfold velixar_search
  | change (dispatch cfg host "velixar_delete" args)
      with (velixar_delete cfg host args); unfold velixar_delete
  | change (dispatch cfg host "velixar_list" args)
      with (velixar_list cfg host args); unfold velixar_list
  | change (dispatch cfg host "velixar_update" args)
      with (velixar_update cfg host args); unfold velixar_update ].

Section ToolRequests.

Variable cfg : Config.
Variable host : Host.

Lemma one_fetch_CallTool (name : string) (args : JsVal) :
  at_most_one_fetch (CallTool cfg host name args).
Proof.
  unfold CallTool. apply one_fetch_try; [| intro; unfold on_error; frame].
  unfold dispatch.
  repeat apply one_fetch_if;
    [ unfold velixar_store | unfold velixar_search | unfold velixar_delete
    | unfold velixar_list | unfold velixar_update | ];
    one_fetch_branch.
Qed.

(** A declared tool, invoked on an arguments object, reaches the
    wrapper. *)
Lemma known_tool_fetches (name : string) (fields : list (string * JsVal))
      (w : World) :
  In name tool_names ->
  exists path o,
    o_headers o = []
    /\ snd (CallTool cfg host name (JObj fields) w)
       = log (build_request cfg path o) w.
Proof.
  intros Hname. rewrite CallTool_world.
  each_tool cfg host (JObj fields) Hname; read_args;
    (rewrite snd_bind_effect_free by (intro; unfold check_error; frame));
    rewrite apiRequest_world; do 2 eexists; (split; [| reflexivity]);
    reflexivity.
Qed.

(** Without an arguments object no branch gets as far as the wrapper. *)
Lemma no_arguments_no_fetch (name : string) (args : JsVal) (w : World) :
  In name tool_names ->
  args = JUndefined \/ args = JNull ->
  exists rest,
    CallTool cfg host name args w
      = (inr (failure ("Error: Cannot read properties of " ++ rest)), w).
Proof.
  intros Hname [-> | ->];
    repeat destruct Hname as [<- | Hname]; try contradiction;
    eexists; reflexivity.
Qed.

(** A name outside the five is answered without any effect. *)
Lemma unknown_tool (name : string) (args : JsVal) (w : World) :
  ~ In name tool_names ->
  CallTool cfg host name args w
    = (inr (failure ("Unknown tool: " ++ name ++ primary_context_note)), w).
Proof.
  intros Hname. unfold CallTool, try_catch, dispatch.
  repeat match goal with
         | |- context [String.eqb name ?t] =>
             destruct (String.eqb_spec name t) as [-> | _];
             [exfalso; apply Hname; simpl; tauto|]
         end.
  reflexivity.
Qed.

End ToolRequests.


(** ** The registry and the dispatch *)

Section Shape.

Lemma success_ret (t : string) : returns_success (ret (success t)).
Proof. intros w r E. injection E as <-. eauto. Qed.

Lemma success_throw (e : Exn) : returns_success (throw e).
Proof. intros w r E. discriminate. Qed.

Lemma success_bind {A : Type} (c : M A) (k : A -> M ToolResult) :
  (forall a, returns_success (k a)) -> returns_success (bind c k).
Proof.
  intros Hk w r. cbn [bind Monad_M].
  destruct (c w) as [[e | a] w']; [discriminate | apply Hk].
Qed.

Lemma success_if (b : bool) (c1 c2 : M ToolResult) :
  returns_success c1 -> returns_success c2 ->
  returns_success (if b then c1 else c2).
Proof. now destruct b. Qed.

End Shape.

Ltac successes :=
  cbv zeta;
  repeat first
    [ apply success_ret
    | apply success_throw
    | apply success_bind; intro; cbv zeta
    | apply success_if ].

Section Dispatch.

Variable cfg : Config.
Variable host : Host.

(** The branch of a declared tool returns unflagged texts only. *)
Lemma known_tool_returns_success (name : string) (args : JsVal) :
  In name tool_names -> returns_success (dispatch cfg host name args).
Proof.
  intros Hname. each_tool cfg host args Hname; successes.
Qed.

(** So its result is an unflagged text, or the rendering of what was
    thrown. *)
Lemma known_tool_result (name : string) (args : JsVal) (w : World) :
  In name tool_names ->
  (exists t, fst (CallTool cfg host name args w) = inr (success t))
  \/ (exists m,
         fst (CallTool cfg host name args w)
           = inr (failure ("Error: " ++ m ++ helpText m))).
Proof.
  intros Hname. unfold CallTool, try_catch.
  destruct (dispatch cfg host name args w) as [[e | r] w'] eqn:E.
  - right. exists (message e). reflexivity.
  - left. apply (f_equal fst) in E. cbn [fst] in E.
    destruct (known_tool_returns_success name args Hname w r E) as [t ->].
    now exists t.
Qed.

Lemma declared_names :
  map Registry.t_name Registry.ListTools = tool_names.
Proof. reflexivity. Qed.

Lemma declared_some (name : string) (t : Registry.Tool) :
  Registry.declared name = Some t ->
  Registry.t_name t = name /\ In name tool_names.
Proof.
  unfold Registry.declared. intros H.
  apply find_some in H. destruct H as [Hin Heq].
  apply String.eqb_eq in Heq. split; [assumption|].
  rewrite <- declared_names, <- Heq. now apply in_map.
Qed.

Lemma declared_none (name : string) :
  Registry.declared name = None -> ~ In name tool_names.
Proof.
  unfold Registry.declared. intros H Hin.
  rewrite <- declared_names in Hin. apply in_map_iff in Hin.
  destruct Hin as (t & Ht & Hin).
  pose proof (find_none _ _ H t Hin) as N. cbn beta in N.
  rewrite Ht, String.eqb_refl in N. discriminate.
Qed.

End Dispatch.

(** X8.  The dispatch and the registry agree.  A name the registry does
    not declare is answered with the flagged text
    ["Unknown tool: <name>"] and the primary-context note, without any
    effect.  A declared name runs its branch: the result is an unflagged
    text, or a flagged text that starts with ["Error: "] and is never
    the unknown-tool reply. *)
Theorem dispatch_matches_registry :
  forall (cfg : Config) (host : Host) (name : string) (args : JsVal) (w : World),
    (Registry.declared name = None ->
     CallTool cfg host name args w
       = (inr (failure ("Unknown tool: " ++ name ++ primary_context_note)), w))
    /\ (forall t,
          Registry.declared name = Some t ->
          Registry.t_name t = name
          /\ ((exists text, fst (CallTool cfg host name args w) = inr (success text))
              \/ (exists m,
                     fst (CallTool cfg host name args w)
                       = inr (failure ("Error: " ++ m ++ helpText m))))
          /\ fst (CallTool cfg host name args w)
             <> inr (failure ("Unknown tool: " ++ name ++ primary_context_note))).
Proof.
  intros cfg host name args w. split.
  - intros H. apply unknown_tool. now apply declared_none.
  - intros t H. destruct (declared_some name t H) as [Hn Hin].
    split; [assumption|].
    pose proof (known_tool_result cfg host name args w Hin) as K.
    split; [exact K|].
    destruct K as [[text ->] | [m ->]]; discriminate.
Qed.

(** An undeclared name, and the declared [velixar_list]. *)
Lemma dispatch_matches_registry_witness :
  (Registry.declared "velixar_forget" = None
   /\ CallTool Samples.cfg_default Samples.unreachable "velixar_forget"
        (JObj []) initial
      = (inr (failure ("Unknown tool: " ++ "velixar_forget"
                         ++ primary_context_note)), initial))
  /\ (exists t,
         Registry.declared "velixar_list" = Some t
         /\ Registry.t_name t = "velixar_list").
Proof.
  split.
  - split; [reflexivity|].
    apply (proj1 (dispatch_matches_registry Samples.cfg_default
                    Samples.unreachable "velixar_forget" (JObj []) initial)).
    reflexivity.
  - eexists. split; [reflexivity|].
    apply (proj2 (dispatch_matches_registry Samples.cfg_default
                    Samples.unreachable "velixar_list" (JObj []) initial)).
    reflexivity.
Defined.

(** X9.  The arguments object is needed by every tool, the list tool
    included, although its schema requires no field: invoked with the
    arguments missing (undefined or null), each of the five tools returns
    a flagged text that starts with ["Error: "], the rendering of the
    engine's complaint about reading a property of nothing, and issues
    no request. *)
Theorem missing_arguments_are_an_error :
  forall (cfg : Config) (host : Host) (name : string) (args : JsVal) (w : World),
    In name tool_names ->
    args = JUndefined \/ args = JNull ->
    exists complaint,
      CallTool cfg host name args w
        = (inr (failure ("Error: " ++ complaint)), w).
Proof.
  intros cfg host name args w Hname Hargs.
  destruct (no_arguments_no_fetch cfg host name args w Hname Hargs) as [rest E].
  eexists. exact E.
Qed.

(** The list tool, whose schema has no required field. *)
Lemma missing_arguments_are_an_error_witness :
  In "velixar_list" tool_names
  /\ (JUndefined = JUndefined \/ JUndefined = JNull)
  /\ exists complaint,
      CallTool Samples.cfg_default (Samples.mock (JObj [])) "velixar_list"
        JUndefined initial
        = (inr (failure ("Error: " ++ complaint)), initial).
Proof.
  split; [simpl; tauto|]. split; [now left|].
  apply (missing_arguments_are_an_error Samples.cfg_default
           (Samples.mock (JObj [])) "velixar_list" JUndefined initial).
  - simpl; tauto.
  - now left.
Defined.

(** ** Failures of the HTTP layer, as the tools report them *)

Section LayerFailures.

Variable cfg : Config.
Variable host : Host.

(** When the wrapper throws [e] whatever it is asked, every tool renders
    [e]. *)
Lemma CallTool_wrapper_throws (name : string) (fields : list (string * JsVal))
      (w : World) (e : Exn) :
  In name tool_names ->
  (forall path o w', fst (apiRequest cfg host path o w') = inl e) ->
  fst (CallTool cfg host name (JObj fields) w)
    = inr (failure ("Error: " ++ message e ++ helpText (message e))).
Proof.
  intros Hname Hthrows. unfold CallTool, try_catch.
  each_tool cfg host (JObj fields) Hname; read_args; cbn [bind Monad_M];
    match goal with
    | |- context [apiRequest cfg host ?p ?o w] =>
        pose proof (Hthrows p o w) as Hf;
        destruct (apiRequest cfg host p o w) as [[e' | v] w']
    end;
    cbn [fst] in Hf; try discriminate; injection Hf as ->; reflexivity.
Qed.

End LayerFailures.





(** ** What counts as success *)



Section Confirmations.

Variable cfg : Config.
Variable host : Host.

(** The delete branch issues one request: a DELETE, without a body, of
    the item's path. *)
Lemma velixar_delete_world (fields : list (string * JsVal)) (w : World) :
  snd (velixar_delete cfg host (JObj fields) w)
    = log (build_request cfg ("/memory/" ++ ToString (field fields "id"))
             {| o_method := Some "DELETE"; o_body := None; o_headers := [] |}) w.
Proof.
  unfold velixar_delete. read_args.
  rewrite snd_bind_effect_free by (intro; unfold check_error; frame).
  apply apiRequest_world.
Qed.

End Confirmations.



(** ** The search URL *)

Section QueryStrings.

Lemma all_chars_app (p : ascii -> bool) (a b : string) :
  all_chars p (a ++ b) = all_chars p a && all_chars p b.
Proof.
  induction a as [| c a IH]; cbn [append all_chars]; [reflexivity|].
  now rewrite IH, andb_assoc.
Qed.

Lemma encode_byte_chars (c : ascii) :
  all_chars query_char (Url.encode_byte c) = true.
Proof. destruct c as [[|] [|] [|] [|] [|] [|] [|] [|]]; reflexivity. Qed.

(** A serialised name or value is made of query characters only: it
    holds no [&], [=], [#], [?], [/], space or control character. *)
Lemma encode_chars (s : string) : all_chars query_char (Url.encode s) = true.
Proof.
  induction s as [| c s IH]; [reflexivity|].
  cbn [Url.encode]. now rewrite all_chars_app, encode_byte_chars, IH.
Qed.

Lemma decode_encode_byte (c : ascii) (rest : string) :
  percent_decode (Url.encode_byte c ++ rest) = String c (percent_decode rest).
Proof. destruct c as [[|] [|] [|] [|] [|] [|] [|] [|]]; reflexivity. Qed.

(** Serialising loses nothing. *)
Lemma decode_encode (s : string) : percent_decode (Url.encode s) = s.
Proof.
  induction s as [| c s IH]; [reflexivity|].
  cbn [Url.encode]. now rewrite decode_encode_byte, IH.
Qed.

Lemma encode_injective (s1 s2 : string) :
  Url.encode s1 = Url.encode s2 -> s1 = s2.
Proof.
  intros H. rewrite <- (decode_encode s1), <- (decode_encode s2). now rewrite H.
Qed.

Lemma append_length (a b : string) :
  String.length (a ++ b) = (String.length a + String.length b)%nat.
Proof. induction a as [| c a IH]; cbn; [reflexivity | now rewrite IH]. Qed.

Lemma append_inv_head (a b c : string) : a ++ b = a ++ c -> b = c.
Proof.
  induction a as [| x a IH]; cbn [append]; [trivial|].
  intros [= H]. now apply IH.
Qed.

Lemma append_inv_tail (a b c : string) : a ++ c = b ++ c -> a = b.
Proof.
  revert b. induction a as [| x a IH]; intros [| y b] H; cbn [append] in H.
  - reflexivity.
  - apply (f_equal String.length) in H. cbn [String.length] in H.
    rewrite append_length in H. lia.
  - apply (f_equal String.length) in H. cbn [String.length] in H.
    rewrite append_length in H. lia.
  - injection H as -> H. f_equal. now apply IH.
Qed.

Variable cfg : Config.
Variable host : Host.

(** The query string of the search request. *)
Lemma search_params (q u : string) (limit : JsVal) :
  Url.toString
    (if truthy limit
     then Url.set "limit" (ToString limit) [("q", q); ("user_id", u)]
     else [("q", q); ("user_id", u)])
  = "q=" ++ Url.encode q ++ "&user_id=" ++ Url.encode u
      ++ (if truthy limit then "&limit=" ++ Url.encode (ToString limit) else "").
Proof.
  destruct (truthy limit); unfold Url.toString;
    cbn [Url.set String.eqb Ascii.eqb Bool.eqb map String.concat fst snd];
    change (Url.encode "q") with "q";
    change (Url.encode "user_id") with "user_id";
    try change (Url.encode "limit") with "limit";
    rewrite ?app_assoc_str, ?app_nil_r_str; reflexivity.
Qed.

(** The search branch issues one request: a GET of the search path with
    the serialised parameters. *)
Lemma velixar_search_world (fields : list (string * JsVal)) (w : World) :
  snd (velixar_search cfg host (JObj fields) w)
    = log (build_request cfg
             ("/memory/search?q=" ++ Url.encode (ToString (field fields "query"))
                ++ "&user_id=" ++ Url.encode (USER_ID cfg)
                ++ (if truthy (field fields "limit")
                    then "&limit=" ++ Url.encode (ToString (field fields "limit"))
                    else ""))
             no_options) w.
Proof.
  unfold velixar_search. read_args. cbv zeta.
  rewrite snd_bind_effect_free by (intro; unfold check_error; frame).
  rewrite apiRequest_world, search_params.
  reflexivity.
Qed.

End QueryStrings.




(** ** Arguments the schemas call required *)



(** ** The listing *)



Section ListUrl.

Variable cfg : Config.
Variable host : Host.

(** The query string of the list request. *)
Lemma list_params (u : string) (limit cursor : JsVal) :
  Url.toString
    (if truthy cursor
     then Url.set "cursor" (ToString cursor)
            (if truthy limit
             then Url.set "limit" (ToString limit) [("user_id", u)]
             else [("user_id", u)])
     else if truthy limit
          then Url.set "limit" (ToString limit) [("user_id", u)]
          else [("user_id", u)])
  = "user_id=" ++ Url.encode u
      ++ (if truthy limit then "&limit=" ++ Url.encode (ToString limit) else "")
      ++ (if truthy cursor then "&cursor=" ++ Url.encode (ToString cursor) else "").
Proof.
  destruct (truthy cursor), (truthy limit); unfold Url.toString;
    cbn [Url.set String.eqb Ascii.eqb Bool.eqb map String.concat fst snd];
    change (Url.encode "user_id") with "user_id";
    try change (Url.encode "limit") with "limit";
    try change (Url.encode "cursor") with "cursor";
    rewrite ?app_assoc_str, ?app_nil_r_str; reflexivity.
Qed.

(** The list branch issues one request: a GET of the list path with the
    serialised parameters. *)
Lemma velixar_list_world (fields : list (string * JsVal)) (w : World) :
  snd (velixar_list cfg host (JObj fields) w)
    = log (build_request cfg
             ("/memory/list?user_id=" ++ Url.encode (USER_ID cfg)
                ++ (if truthy (field fields "limit")
                    then "&limit=" ++ Url.encode (ToString (field fields "limit"))
                    else "")
                ++ (if truthy (field fields "cursor")
                    then "&cursor=" ++ Url.encode (ToString (field fields "cursor"))
                    else ""))
             no_options) w.
Proof.
  unfold velixar_list. read_args. cbv zeta.
  rewrite snd_bind_effect_free by (intro; unfold check_error; frame).
  rewrite apiRequest_world, list_params.
  reflexivity.
Qed.

End ListUrl.


(** ** Faults of the resource reader *)

Section ReaderFaults.

Lemma call_map_throws (expr : string) (f : JsVal -> Res string)
      (before after : list JsVal) (m : JsVal) (lines : list string) (e : Exn) :
  Forall2 (fun x line => f x = inr line) before lines ->
  f m = inl e ->
  call_map expr (JArr (before ++ m :: after)) f = inl e.
Proof.
  intros Hbefore Hm. unfold call_map.
  induction Hbefore as [| x line before lines Hx _ IH];
    cbn [app fold_right].
  - now rewrite Hm.
  - now rewrite Hx, IH.
Qed.

End ReaderFaults.

(** X19.  The resource reader has no [catch] clause: its faults are
    thrown to the protocol layer, with the state unchanged.  Reading any
    URI but [velixar://memories/recent] throws
    ["Unknown resource: <uri>"]; reading the recent memories throws a
    [TypeError] when the snapshot holds a null memory, and when the
    snapshot is a non-empty string instead of an array. *)
Theorem resource_read_faults :
  forall (cfg : Config) (host : Host) (w : World),
    (forall uri,
        uri <> "velixar://memories/recent" ->
        ReadResource cfg host uri w
          = (inl (Error ("Unknown resource: " ++ uri)), w))
    /\ (forall before after lines,
          _recalledMemories w = JArr (before ++ JNull :: after) ->
          Forall2 (fun m line => recent_line m = inr line) before lines ->
          exists msg,
            ReadResource cfg host "velixar://memories/recent" w
              = (inl (TypeError msg), w))
    /\ (forall s,
          s <> "" ->
          _recalledMemories w = JStr s ->
          exists msg,
            ReadResource cfg host "velixar://memories/recent" w
              = (inl (TypeError msg), w)).
Proof.
  intros cfg host w. split; [| split].
  - intros uri Huri. unfold ReadResource.
    apply String.eqb_neq in Huri.
    change recent_uri with "velixar://memories/recent". now rewrite Huri.
  - intros before after lines Hslot Hlines. eexists.
    unfold ReadResource, get_recalled, lift.
    change (String.eqb "velixar://memories/recent" recent_uri) with true.
    cbn [bind Monad_M]. rewrite Hslot. cbn [truthy negb ret Monad_M].
    rewrite Hslot. cbn [or_else truthy].
    rewrite (call_map_throws _ _ before after JNull lines _ Hlines eq_refl).
    reflexivity.
  - intros s Hs Hslot. eexists.
    assert (Ht : truthy (JStr s) = true).
    { cbn [truthy]. apply String.eqb_neq in Hs. now rewrite Hs. }
    unfold ReadResource, get_recalled, lift.
    change (String.eqb "velixar://memories/recent" recent_uri) with true.
    cbn [bind Monad_M]. rewrite Hslot, Ht. cbn [negb ret Monad_M].
    rewrite Hslot. unfold or_else. rewrite Ht. reflexivity.
Qed.

(** ** Tags *)


